(** * Suada MCP adapters: request/response normalisation and error mapping

    A shallow embedding of [src/python/suada_mcp.py] (the direct HTTP client,
    [SuadaMCP.process]) and of [src/python/suada_server.py] (the two tool
    handlers [business_analyst] and [data_retrieval]).

    Python values are embedded as a JSON-like tree, dictionaries as finite
    maps, and the two effects the code has (outbound calls and exceptions)
    as a small state-and-exception monad: a computation receives the list of
    outbound calls made so far and yields either a returned value or a raised
    exception, together with the extended list.  The external collaborators
    (the HTTP transport behind [requests.post], the Suada SDK behind
    [self.suada.chat]) are arbitrary functions supplied by the environment.
    Calls to [logger] only write to the log and are left out. *)

From Stdlib Require Import ZArith String Ascii PrimFloat.
From stdpp Require Import base option gmap strings list fin_maps.

Set Warnings "-register-all".

Local Open Scope string_scope.
Local Open Scope Z_scope.

(** ** Python values *)

(** The values that flow through both adapters: what [json.loads] yields and
    what the SDK response attributes hold. *)
Inductive value : Type :=
| VNone
| VBool (b : bool)
| VInt (z : Z)
| VFloat (f : float)
| VStr (s : string)
| VList (l : list value)
| VDict (d : gmap string value).

(** [type(v).__name__], as it appears in interpreter error messages. *)
Definition type_name (v : value) : string :=
  match v with
  | VNone => "NoneType"
  | VBool _ => "bool"
  | VInt _ => "int"
  | VFloat _ => "float"
  | VStr _ => "str"
  | VList _ => "list"
  | VDict _ => "dict"
  end.

(** [bool(v)]: None, False, zero and empty containers are falsy. *)
Definition truthy (v : value) : bool :=
  match v with
  | VNone => false
  | VBool b => b
  | VInt z => negb (z =? 0)
  | VFloat f => negb (PrimFloat.eqb f 0%float)
  | VStr s => negb (String.eqb s "")
  | VList l => match l with [] => false | _ :: _ => true end
  | VDict d => negb (bool_decide (d = ∅))
  end.

(** [a or b] on values. *)
Definition py_or (a b : value) : value := if truthy a then a else b.

(** An [Optional[str]] field, its truth value, [a or b] on two of them, and
    its injection into [value]. *)
Definition opt_truthy (o : option string) : bool :=
  match o with
  | Some s => negb (String.eqb s "")
  | None => false
  end.

Definition opt_or (a b : option string) : option string :=
  if opt_truthy a then a else b.

Definition opt_value (o : option string) : value :=
  match o with
  | Some s => VStr s
  | None => VNone
  end.

(** [sub in s] for two strings. *)
Definition is_substring (sub s : string) : bool :=
  match String.index 0 sub s with
  | Some _ => true
  | None => false
  end.

(** [s.rstrip(c)] for a one-character [c]. *)
Fixpoint rstrip (c : ascii) (s : string) : string :=
  match s with
  | EmptyString => EmptyString
  | String a rest =>
      match rstrip c rest with
      | EmptyString => if Ascii.eqb a c then EmptyString else String a EmptyString
      | r => String a r
      end
  end.

(** ** Outcomes and the call-recording exception monad *)

Inductive outcome (E A : Type) : Type :=
| Returns (a : A)
| Raises (e : E).
Arguments Returns {E A} a.
Arguments Raises {E A} e.

(** [eff C E A]: a computation that may append outbound calls of type [C] to
    the trace and either returns an [A] or raises an [E]. *)
Definition eff (C E A : Type) : Type := list C → outcome E A * list C.

Definition eff_ret {C E A} (a : A) : eff C E A := λ calls, (Returns a, calls).

Definition eff_bind {C E A B} (f : A → eff C E B) (m : eff C E A) : eff C E B :=
  λ calls,
    match m calls with
    | (Returns a, calls') => f a calls'
    | (Raises e, calls') => (Raises e, calls')
    end.

Definition raise {C E A} (e : E) : eff C E A := λ calls, (Raises e, calls).

Definition lift {C E A} (o : outcome E A) : eff C E A := λ calls, (o, calls).

(** [try: body / except ...: handler e].  The handler receives every raised
    exception and does its own dispatch on the class; an exception raised by
    the handler itself is not handled again, it leaves the statement. *)
Definition try_except {C E A} (body : eff C E A) (handler : E → eff C E A)
  : eff C E A :=
  λ calls,
    match body calls with
    | (Returns a, calls') => (Returns a, calls')
    | (Raises e, calls') => handler e calls'
    end.

#[global] Instance eff_mret {C E} : MRet (eff C E) := λ A, eff_ret.
#[global] Instance eff_mbind {C E} : MBind (eff C E) := λ A B, eff_bind.

(** ** The direct client, [suada_mcp.py] *)

Module SuadaMcp.

(** Two source names are taken twice in this module and get a suffix here:
    [json_] is the method [Response.json()] (the keyword argument [json] of
    [requests.post] keeps its name), and [req_metadata] is
    [MCPRequest.metadata] ([MCPResponse.metadata] keeps its name). *)

(** What the code observes of a [requests.Response]: the status and what
    [.json()] does.  Since requests 2.27 a body that is not JSON makes
    [.json()] raise [requests.exceptions.JSONDecodeError], which is a
    [RequestException]; before, it raised a plain [ValueError] subclass.
    The flag says which. *)
Inductive json_result : Type :=
| JsonValue (v : value)
| JsonDecodeError (is_request_exception : bool) (msg : string).

Record HttpResponse : Type := {
  status_code : Z;
  json_ : json_result;
}.

(** The [response] attribute of an exception object: not there at all
    ([hasattr] is false), there and [None], or there and a response.
    [RequestException.__init__] always sets the attribute, to [None] when
    no response was received (connection refused, timeout, ...). *)
Inductive attr (A : Type) : Type :=
| AttrMissing
| AttrNone
| AttrObj (a : A).
Arguments AttrMissing {A}.
Arguments AttrNone {A}.
Arguments AttrObj {A} a.

(** Instances of [Exception].  For a [requests.exceptions.RequestException]
    the code only reads the [response] attribute (its text is only logged);
    of any other exception it reads [str(e)]. *)
Inductive exn : Type :=
| RequestException (response : attr HttpResponse)
| PyException (cls : string) (str : string).

Definition ValueError : string → exn := PyException "ValueError".
Definition AttributeError : string → exn := PyException "AttributeError".
Definition TypeError : string → exn := PyException "TypeError".
Definition KeyError : string → exn := PyException "KeyError".

(** The arguments of one [requests.post(url, headers=..., json=...)]. *)
Record http_call : Type := {
  url : string;
  headers : gmap string string;
  json : gmap string value;
}.

Record MCPRequest : Type := {
  query : string;
  context : gmap string value;
  user_id : option string;
  conversation_id : option string;
  req_metadata : gmap string value;
}.

(** The dataclass does not enforce its annotations: [content] and [error]
    hold whatever the upstream body supplied.  [error = VNone] is the
    default [None]. *)
Record MCPResponse : Type := {
  content : value;
  metadata : gmap string value;
  error : value;
}.

Record SuadaMCP : Type := {
  api_key : string;
  base_url : string;
  external_user_identifier : option string;
}.

Definition default_base_url : string := "https://suada.ai/api/public".

(** [SuadaMCP.__init__]; [env_api_key] is [os.getenv("SUADA_API_KEY")]. *)
Definition init (api_key env_api_key : option string) (base_url : string)
    (external_user_identifier : option string) : outcome exn SuadaMCP :=
  let key := opt_or api_key env_api_key in
  match key with
  | Some k =>
      if negb (opt_truthy key) then
        Raises (ValueError "Suada API key is required. Provide it as an argument or set SUADA_API_KEY environment variable.")
      else
        Returns {| api_key := k;
                   base_url := rstrip "/" base_url;
                   external_user_identifier := external_user_identifier |}
  | None =>
      Raises (ValueError "Suada API key is required. Provide it as an argument or set SUADA_API_KEY environment variable.")
  end.

Definition _get_headers (self : SuadaMCP) : gmap string string :=
  {[ "Authorization" := "Bearer " ++ api_key self;
     "Content-Type" := "application/json";
     "Accept" := "application/json";
     "User-Agent" := "SuadaMCP/1.0 Python" ]}.

(** [data.get(key, default)]: only a dict has the method. *)
Definition py_get (data : value) (key : string) (default : value)
  : outcome exn value :=
  match data with
  | VDict d => Returns (from_option id default (d !! key))
  | _ => Raises (AttributeError
                   ("'" ++ type_name data ++ "' object has no attribute 'get'"))
  end.


(** ["message" in v], the membership test of each type of value. *)
Definition py_contains (key : string) (v : value) : outcome exn bool :=
  match v with
  | VDict d => Returns (bool_decide (is_Some (d !! key)))
  | VList l =>
      Returns (existsb (λ x, match x with
                             | VStr s => String.eqb s key
                             | _ => false
                             end) l)
  | VStr s => Returns (is_substring key s)
  | _ => Raises (TypeError
                   ("argument of type '" ++ type_name v ++ "' is not iterable"))
  end.

(** [v["message"]], subscription by a string key. *)
Definition py_getitem (v : value) (key : string) : outcome exn value :=
  match v with
  | VDict d =>
      match d !! key with
      | Some x => Returns x
      | None => Raises (KeyError key)
      end
  | VList _ => Raises (TypeError "list indices must be integers or slices, not str")
  | VStr _ => Raises (TypeError "string indices must be integers, not 'str'")
  | _ => Raises (TypeError ("'" ++ type_name v ++ "' object is not subscriptable"))
  end.

Definition user_id_required : string :=
  "User identifier is required. Provide it in the request or during initialization.".

Definition failed_to_communicate : string :=
  "Failed to communicate with Suada API".

Section Process.

(** The transport: what [requests.post] does with a given call, either a
    response or a raised exception ([ConnectionError], [Timeout], a
    [TypeError] from serialising the payload, ...). *)
Variable network : http_call → outcome exn HttpResponse.

#[local] Abbreviation M := (eff http_call exn).

(** [requests.post(...)]: the call is recorded, the transport answers. *)
Definition requests_post (c : http_call) : M HttpResponse :=
  λ calls, (network c, (calls ++ [c])%list).

(** [response.raise_for_status()]: an [HTTPError] carrying the response for
    a 4xx or 5xx status, nothing otherwise. *)
Definition raise_for_status (response : HttpResponse) : M unit :=
  if (400 <=? status_code response) && (status_code response <? 600)
  then raise (RequestException (AttrObj response))
  else mret tt.

(** [response.json()]. *)
Definition response_json (response : HttpResponse) : M value :=
  match json_ response with
  | JsonValue v => mret v
  | JsonDecodeError true _ => raise (RequestException AttrNone)
  | JsonDecodeError false msg => raise (PyException "JSONDecodeError" msg)
  end.

(** Lines 101-109: the outbound payload. *)
Definition build_payload (request : MCPRequest) (user_id : option string)
  : gmap string value :=
  let payload : gmap string value :=
    {[ "message" := VStr (query request);
       "externalUserIdentifier" := opt_value user_id;
       "context" := VDict (context request) ]} in
  if opt_truthy (conversation_id request)
  then <[ "conversationId" := opt_value (conversation_id request) ]> payload
  else payload.

(** Lines 120-141: the status check, the parse of the body and the
    normalised response. *)
Definition parse_response (response : HttpResponse) : M MCPResponse :=
  raise_for_status response;;
  data ← response_json response;
  metrics ← lift (py_get data "metrics" (VDict ∅));
  insights ← lift (py_get data "insights" (VList []));
  recommendations ← lift (py_get data "recommendations" (VList []));
  risks ← lift (py_get data "risks" (VList []));
  reasoning ← lift (py_get data "reasoning" (VStr ""));
  let structured_data : gmap string value :=
    {[ "metrics" := metrics;
       "insights" := insights;
       "recommendations" := recommendations;
       "risks" := risks;
       "reasoning" := reasoning ]} in
  content ← lift (py_get data "response" (VStr ""));
  mret {| content := content;
          metadata := {[ "suada_data" := VDict structured_data;
                         "raw_response" := data ]};
          error := VNone |}.

(** The arguments of the one [requests.post] of [process]. *)
Definition outbound_call (self : SuadaMCP) (request : MCPRequest)
    (user_id : option string) : http_call :=
  {| url := base_url self ++ "/chat";
     headers := _get_headers self;
     json := build_payload request user_id |}.

(** Lines 95-141: the body of the [try]. *)
Definition process_body (self : SuadaMCP) (request : MCPRequest)
  : M MCPResponse :=
  let user_id := opt_or (user_id request) (external_user_identifier self) in
  if negb (opt_truthy user_id) then raise (ValueError user_id_required)
  else
    response ← requests_post (outbound_call self request user_id);
    parse_response response.

(** Lines 147-154: the error text.  The inner [try] has a bare [except]
    that swallows every fault of reading the error body. *)
Definition extract_error_message (response : attr HttpResponse) : M value :=
  match response with
  | AttrObj r =>
      try_except
        (error_data ← response_json r;
         has_message ← lift (py_contains "message" error_data);
         if has_message : bool then lift (py_getitem error_data "message")
         else mret (VStr failed_to_communicate))
        (λ _, mret (VStr failed_to_communicate))
  | _ => mret (VStr failed_to_communicate)
  end.

(** Line 159: [e.response.status_code if hasattr(e, "response") else None].
    The guard tests only that the attribute exists, so an attribute that is
    [None] is dereferenced. *)
Definition status_code_of (response : attr HttpResponse) : M value :=
  match response with
  | AttrMissing => mret VNone
  | AttrNone =>
      raise (AttributeError "'NoneType' object has no attribute 'status_code'")
  | AttrObj r => mret (VInt (status_code r))
  end.

(** Lines 143-167: the two [except] clauses, tried in order. *)
Definition process_handler (e : exn) : M MCPResponse :=
  match e with
  | RequestException response =>
      error_message ← extract_error_message response;
      status ← status_code_of response;
      mret {| content := VStr "";
              metadata := {[ "status_code" := status ]};
              error := error_message |}
  | PyException _ str =>
      mret {| content := VStr "";
              metadata := ∅;
              error := VStr ("Unexpected error: " ++ str) |}
  end.

(** [SuadaMCP.process]. *)
Definition process (self : SuadaMCP) (request : MCPRequest) : M MCPResponse :=
  try_except (process_body self request) process_handler.

End Process.

Section LangChainTool.

Variable network : http_call → outcome exn HttpResponse.

(** [str(v)], as the f-string of [_run] formats the error.  It is a
    builtin of the interpreter and is taken as given; the properties below
    only rely on [str] of a text being that text. *)
Variable format_value : value → string.

(** [SuadaTool._run] of [create_langchain_tool] (lines 194-201), with
    [self.mcp] the client the tool was created from.  The class statement
    around it is LangChain's and is not modelled. *)
Definition _run (mcp : SuadaMCP) (query : string)
  : eff http_call exn value :=
  let mcp_request := {| query := query;
                        context := ∅;
                        user_id := None;
                        conversation_id := None;
                        req_metadata := ∅ |} in
  mcp_response ← process network mcp mcp_request;
  if truthy (error mcp_response)
  then mret (VStr ("Error: " ++ format_value (error mcp_response)))
  else mret (content mcp_response).


End LangChainTool.

End SuadaMcp.

(** ** The tool server, [suada_server.py] *)

Module SuadaServer.

(** An instance of [Exception], which is what the handlers' [except
    Exception] clause names: its class and [str(e)].  Interpreter signals
    that derive from [BaseException] only ([KeyboardInterrupt],
    [SystemExit]) are not exceptions of the handler body and are not
    modelled. *)
Record exn : Type := Exception {
  cls : string;
  str : string;
}.

Definition ToolExecutionError : string → exn := Exception "ToolExecutionError".
Definition AttributeError : string → exn := Exception "AttributeError".

(** The SDK's [ChatPayload], of which the handlers set [message] only. *)
Record ChatPayload : Type := {
  message : string;
}.

(** A Python object as the handlers see it: its class name and its
    attributes.  The SDK's chat response is such an object. *)
Record object : Type := {
  class_name : string;
  attrs : gmap string value;
}.

(** The injected SDK client.  [payload_fault m] is the exception that
    constructing [ChatPayload(message=m)] raises, if it raises; [chat_api p]
    is what [Suada.chat(payload=p)] does, a response object or a raised
    exception. *)
Record Suada : Type := {
  payload_fault : string → option exn;
  chat_api : ChatPayload → outcome exn object;
}.

Record SuadaMCPServer : Type := {
  api_key : string;
  suada : Suada;
}.

#[local] Abbreviation M := (eff ChatPayload exn).

(** [ChatPayload(message=text)]. *)
Definition new_ChatPayload (sdk : Suada) (text : string) : M ChatPayload :=
  match payload_fault sdk text with
  | Some e => raise e
  | None => mret {| message := text |}
  end.

(** [self.suada.chat(payload=payload)]: the call is recorded, the SDK
    answers. *)
Definition chat (sdk : Suada) (payload : ChatPayload) : M object :=
  λ calls, (chat_api sdk payload, (calls ++ [payload])%list).

(** [o.name]. *)
Definition getattr (o : object) (name : string) : outcome exn value :=
  match attrs o !! name with
  | Some v => Returns v
  | None => Raises (AttributeError ("'" ++ class_name o
                      ++ "' object has no attribute '" ++ name ++ "'"))
  end.

(** Lines 145-165: the body of the [try] of [business_analyst]. *)
Definition business_analyst_body (self : SuadaMCPServer) (query : string)
  : M (gmap string value) :=
  payload ← new_ChatPayload (suada self) query;
  response ← chat (suada self) payload;
  response_ ← lift (getattr response "response");
  metrics ← lift (getattr response "metrics");
  insights ← lift (getattr response "insights");
  recommendations ← lift (getattr response "recommendations");
  risks ← lift (getattr response "risks");
  mret {[ "response" := response_;
          "metrics" := py_or metrics (VDict ∅);
          "insights" := py_or insights (VList []);
          "recommendations" := py_or recommendations (VList []);
          "risks" := py_or risks (VList []) ]}.

(** The tool [suada_business_analyst]. *)
Definition business_analyst (self : SuadaMCPServer) (query : string)
  : M (gmap string value) :=
  try_except (business_analyst_body self query)
    (λ e, raise (ToolExecutionError
                   ("Failed to get business insights: " ++ str e))).

(** Line 208: the composite instruction. *)
Definition retrieval_instruction (data_source query : string) : string :=
  "Retrieve data from " ++ data_source ++ ": " ++ query.

(** Lines 204-224: the body of the [try] of [data_retrieval]. *)
Definition data_retrieval_body (self : SuadaMCPServer)
    (data_source query : string) : M (gmap string value) :=
  payload ← new_ChatPayload (suada self) (retrieval_instruction data_source query);
  response ← chat (suada self) payload;
  data ← lift (getattr response "response");
  mret {[ "data" := data;
          "metadata" := VDict {[ "source" := VStr data_source;
                                 "query" := VStr query ]} ]}.

(** The tool [suada_data_retrieval]. *)
Definition data_retrieval (self : SuadaMCPServer) (data_source query : string)
  : M (gmap string value) :=
  try_except (data_retrieval_body self data_source query)
    (λ e, raise (ToolExecutionError ("Failed to retrieve data: " ++ str e))).

(** *** Tool descriptors, lines 90-131 and 171-188 *)

(** What [self.server.tool(...)] is given for one tool. *)
Record Tool : Type := {
  name : string;
  description : string;
  param_schema : value;
  return_schema : option value;
}.

Definition business_analyst_tool : Tool :=
  {| name := "suada_business_analyst";
     description := "Get business insights and analysis from Suada AI. Input should be a specific business question.";
     param_schema :=
       VDict {[ "type" := VStr "object";
                "properties" :=
                  VDict {[ "query" :=
                             VDict {[ "type" := VStr "string";
                                      "description" := VStr "The business question to analyze" ]} ]};
                "required" := VList [VStr "query"] ]};
     return_schema :=
       Some (VDict {[ "type" := VStr "object";
                      "properties" :=
                        VDict {[ "response" :=
                                   VDict {[ "type" := VStr "string";
                                            "description" := VStr "The business analysis response" ]};
                                 "metrics" :=
                                   VDict {[ "type" := VStr "object";
                                            "description" := VStr "Key metrics extracted from the analysis" ]};
                                 "insights" :=
                                   VDict {[ "type" := VStr "array";
                                            "description" := VStr "List of key insights from the analysis";
                                            "items" := VDict {[ "type" := VStr "string" ]} ]};
                                 "recommendations" :=
                                   VDict {[ "type" := VStr "array";
                                            "description" := VStr "List of recommendations based on the analysis";
                                            "items" := VDict {[ "type" := VStr "string" ]} ]};
                                 "risks" :=
                                   VDict {[ "type" := VStr "array";
                                            "description" := VStr "List of potential risks identified in the analysis";
                                            "items" := VDict {[ "type" := VStr "string" ]} ]} ]} ]}) |}.

Definition data_retrieval_tool : Tool :=
  {| name := "suada_data_retrieval";
     description := "Retrieve specific data from a connected data source in Suada.";
     param_schema :=
       VDict {[ "type" := VStr "object";
                "properties" :=
                  VDict {[ "data_source" :=
                             VDict {[ "type" := VStr "string";
                                      "description" := VStr "The name of the data source to query" ]};
                           "query" :=
                             VDict {[ "type" := VStr "string";
                                      "description" := VStr "The query to execute against the data source" ]} ]};
                "required" := VList [VStr "data_source"; VStr "query"] ]};
     return_schema := None |}.

(** The descriptors of [_register_tools], in the order of registration. *)
Definition _register_tools : list Tool :=
  [business_analyst_tool; data_retrieval_tool].

(** *** Construction and entry point, lines 51-85 and 230-250 *)

Definition ValueError : string → exn := Exception "ValueError".

(** How [main] ends: it returns, or [exit(code)] ends the process. *)
Inductive ending : Type :=
| Completed
| SystemExit (code : Z).

Section Main.

(** [os.getenv("SUADA_API_KEY")]. *)
Variable getenv_api_key : option string.

(** [Suada(config=SuadaConfig(api_key=key))]: the SDK client for a key, or
    the exception its constructor raises. *)
Variable new_Suada : string → outcome exn Suada.

(** [McpServer(name=..., version=...)] followed by the registration of the
    tools: it goes through or raises. *)
Variable mcp_setup : outcome exn unit.

(** [StdioServerTransport()] followed by [self.server.run(transport)]: the
    run loop ends or raises. *)
Variable serve : SuadaMCPServer → outcome exn unit.

(** [SuadaMCPServer.__init__]. *)
Definition init (api_key : option string) : outcome exn SuadaMCPServer :=
  let key := opt_or api_key getenv_api_key in
  match key with
  | Some k =>
      if negb (opt_truthy key) then
        Raises (ValueError "Suada API key is required. Provide it as an argument or set SUADA_API_KEY environment variable.")
      else
        match new_Suada k with
        | Raises e => Raises e
        | Returns sdk =>
            match mcp_setup with
            | Raises e => Raises e
            | Returns _ => Returns {| api_key := k; suada := sdk |}
            end
        end
  | None =>
      Raises (ValueError "Suada API key is required. Provide it as an argument or set SUADA_API_KEY environment variable.")
  end.

(** [SuadaMCPServer.run]: the clause logs and raises the exception again. *)
Definition run (self : SuadaMCPServer) : outcome exn unit :=
  match serve self with
  | Returns u => Returns u
  | Raises e => Raises e
  end.

(** [main], from the parsed [--api-key]: every exception of the
    construction or of the run loop ends in [exit(1)]. *)
Definition main (args_api_key : option string) : ending :=
  match init args_api_key with
  | Raises _ => SystemExit 1
  | Returns server =>
      match run server with
      | Raises _ => SystemExit 1
      | Returns _ => Completed
      end
  end.

End Main.

End SuadaServer.

(** ** Vocabulary for the properties of the direct client *)

Module ClientSpec.
Import SuadaMcp.

(** The response of the catch-all clause to a missing user identifier. *)
Definition precondition_failure : MCPResponse :=
  {| content := VStr "";
     metadata := ∅;
     error := VStr ("Unexpected error: " ++ user_id_required) |}.

(** The five fields of the structured-insights block and the value each
    takes when the body does not have it. *)
Definition structured_fields : list string :=
  ["metrics"; "insights"; "recommendations"; "risks"; "reasoning"].

Definition field_default (k : string) : value :=
  if String.eqb k "metrics" then VDict ∅
  else if String.eqb k "reasoning" then VStr ""
  else VList [].

(** The normalised response to a successful body [d]. *)
Definition success_response (d : gmap string value) : MCPResponse :=
  {| content := from_option id (VStr "") (d !! "response");
     metadata :=
       {[ "suada_data" :=
            VDict {[ "metrics" := from_option id (VDict ∅) (d !! "metrics");
                     "insights" := from_option id (VList []) (d !! "insights");
                     "recommendations" :=
                       from_option id (VList []) (d !! "recommendations");
                     "risks" := from_option id (VList []) (d !! "risks");
                     "reasoning" := from_option id (VStr "") (d !! "reasoning") ]};
          "raw_response" := VDict d ]};
     error := VNone |}.

(** [raise_for_status] lets a status through: it is not a 4xx or 5xx. *)
Definition status_ok (status : Z) : bool :=
  negb ((400 <=? status) && (status <? 600)).

(** The [message] field of an upstream error body, when that body parses as
    a mapping that has one. *)
Definition upstream_message (r : HttpResponse) : option value :=
  match json_ r with
  | JsonValue (VDict d) => d !! "message"
  | _ => None
  end.

(** The response of the transport clause to a failure that carries the
    HTTP response [r]. *)
Definition http_failure_response (r : HttpResponse) : MCPResponse :=
  {| content := VStr "";
     metadata := {[ "status_code" := VInt (status_code r) ]};
     error := from_option id (VStr failed_to_communicate) (upstream_message r) |}.

(** *** Sample inputs *)

Definition client : SuadaMCP :=
  {| api_key := "sk-test";
     base_url := default_base_url;
     external_user_identifier := None |}.

Definition client_with_default : SuadaMCP :=
  {| api_key := "sk-test";
     base_url := default_base_url;
     external_user_identifier := Some "example_user" |}.

Definition revenue_request : MCPRequest :=
  {| query := "What's our revenue trend?";
     context := {[ "timeframe" := VStr "last_quarter" ]};
     user_id := Some "u1";
     conversation_id := None;
     req_metadata := ∅ |}.

Definition revenue_request_c1 : MCPRequest :=
  {| query := "What's our revenue trend?";
     context := {[ "timeframe" := VStr "last_quarter" ]};
     user_id := Some "u1";
     conversation_id := Some "c1";
     req_metadata := ∅ |}.

Definition revenue_payload : gmap string value :=
  {[ "message" := VStr "What's our revenue trend?";
     "externalUserIdentifier" := VStr "u1";
     "context" := VDict {[ "timeframe" := VStr "last_quarter" ]} ]}.

Definition revenue_payload_c1 : gmap string value :=
  {[ "message" := VStr "What's our revenue trend?";
     "externalUserIdentifier" := VStr "u1";
     "context" := VDict {[ "timeframe" := VStr "last_quarter" ]};
     "conversationId" := VStr "c1" ]}.

Definition anonymous_request : MCPRequest :=
  {| query := "How many orders shipped?";
     context := ∅;
     user_id := None;
     conversation_id := None;
     req_metadata := ∅ |}.

Definition blank_request : MCPRequest :=
  {| query := "How many orders shipped?";
     context := ∅;
     user_id := Some "";
     conversation_id := Some "";
     req_metadata := ∅ |}.

(** A transport that never gets a response: [requests.post] raises a
    [ConnectionError] (or a [Timeout]), whose [response] is [None]. *)
Definition connection_refused : http_call → outcome exn HttpResponse :=
  λ _, Raises (RequestException AttrNone).

(** A transport that answers every call with the same status and body. *)
Definition replies (status : Z) (body : json_result)
  : http_call → outcome exn HttpResponse :=
  λ _, Returns {| status_code := status; json_ := body |}.

Definition not_found : HttpResponse :=
  {| status_code := 404;
     json_ := JsonValue (VDict {[ "message" := VStr "Unknown user" ]}) |}.

Definition blank_conversation_request : MCPRequest :=
  {| query := "How many orders shipped?";
     context := ∅;
     user_id := Some "u1";
     conversation_id := Some "";
     req_metadata := ∅ |}.

Definition growth_body : gmap string value :=
  {[ "response" := VStr "Revenue grew 4%.";
     "insights" := VList [VStr "Q3 was the strongest quarter"] ]}.

Definition null_metrics_body : gmap string value :=
  {[ "response" := VStr "Revenue grew 4%."; "metrics" := VNone ]}.

End ClientSpec.

(** ** Vocabulary for the properties of the tool server *)

Module ServerSpec.
Import SuadaServer.

(** The four collection fields of the result of [business_analyst]. *)
Definition collection_fields : list string :=
  ["metrics"; "insights"; "recommendations"; "risks"].

(** The result of [business_analyst] for the five attributes of the SDK
    response. *)
Definition analyst_result (response metrics insights recommendations risks : value)
  : gmap string value :=
  {[ "response" := response;
     "metrics" := py_or metrics (VDict ∅);
     "insights" := py_or insights (VList []);
     "recommendations" := py_or recommendations (VList []);
     "risks" := py_or risks (VList []) ]}.

(** The result of [data_retrieval] for the text of the SDK response. *)
Definition retrieval_result (data : value) (data_source query : string)
  : gmap string value :=
  {[ "data" := data;
     "metadata" := VDict {[ "source" := VStr data_source;
                            "query" := VStr query ]} ]}.

(** *** Sample inputs *)

(** An SDK that accepts every payload and answers every chat with [o]. *)
Definition sdk_answering (o : object) : Suada :=
  {| payload_fault := λ _, None;
     chat_api := λ _, Returns o |}.

(** An SDK whose chat call raises [e]. *)
Definition sdk_failing (e : exn) : Suada :=
  {| payload_fault := λ _, None;
     chat_api := λ _, Raises e |}.

(** An SDK whose payload constructor raises [e]. *)
Definition sdk_rejecting (e : exn) : Suada :=
  {| payload_fault := λ _, Some e;
     chat_api := λ _, Raises e |}.

Definition server_of (sdk : Suada) : SuadaMCPServer :=
  {| api_key := "sk-test"; suada := sdk |}.

Definition sales_answer : object :=
  {| class_name := "SuadaResponse";
     attrs := {[ "response" := VStr "1. Widgets 2. Gadgets";
                 "metrics" := VNone;
                 "insights" := VList [VStr "Widgets lead"];
                 "recommendations" := VNone;
                 "risks" := VNone ]} |}.

Definition silent_answer : object :=
  {| class_name := "SuadaResponse";
     attrs := {[ "response" := VNone;
                 "metrics" := VNone;
                 "insights" := VNone;
                 "recommendations" := VNone;
                 "risks" := VNone ]} |}.

Definition upstream_timeout : exn := Exception "TimeoutError" "timed out".

End ServerSpec.

(** ** Vocabulary for the further properties *)

Module ExtraSpec.
Import SuadaMcp.

(** [t] is made of the character [c] only. *)
Fixpoint only_char (c : ascii) (t : string) : bool :=
  match t with
  | EmptyString => true
  | String a rest => Ascii.eqb a c && only_char c rest
  end.

(** The request with its [metadata] field replaced. *)
Definition with_metadata (request : MCPRequest) (m : gmap string value)
  : MCPRequest :=
  {| query := query request;
     context := context request;
     user_id := user_id request;
     conversation_id := conversation_id request;
     req_metadata := m |}.

(** The response of the catch-all clause to an exception of text [text]. *)
Definition unexpected_error (text : string) : MCPResponse :=
  {| content := VStr "";
     metadata := ∅;
     error := VStr ("Unexpected error: " ++ text) |}.

(** The exception that leaves [process] when the transport clause reads
    the status of a response that is [None]. *)
Definition escaped_fault : exn :=
  AttributeError "'NoneType' object has no attribute 'status_code'".

(** The request that [SuadaTool._run] builds for a query. *)
Definition tool_request (query : string) : MCPRequest :=
  {| query := query;
     context := ∅;
     user_id := None;
     conversation_id := None;
     req_metadata := ∅ |}.

(** A [str] for the sample runs, which only format texts. *)
Definition str_of_text (v : value) : string :=
  match v with
  | VStr s => s
  | _ => type_name v
  end.

(** The JSON-schema type of a value. *)
Definition json_type (v : value) : string :=
  match v with
  | VNone => "null"
  | VBool _ => "boolean"
  | VInt _ => "integer"
  | VFloat _ => "number"
  | VStr _ => "string"
  | VList _ => "array"
  | VDict _ => "object"
  end.

(** [v[k]] when [v] is a mapping that has the key. *)
Definition member (v : value) (k : string) : option value :=
  match v with
  | VDict d => d !! k
  | _ => None
  end.

(** [schema["properties"][k]["type"]]. *)
Definition declared_type (schema : value) (k : string) : option value :=
  p ← member schema "properties";
  f ← member p k;
  member f "type".

(** [schema["properties"]] has the key [k]. *)
Definition declares (schema : value) (k : string) : Prop :=
  ∃ f, (member schema "properties" ≫= λ p, member p k) = Some f.

End ExtraSpec.

(** Sample inputs for the further properties. *)

Module ExtraSamples.
Import SuadaMcp ClientSpec.

(** A transport that cannot serialise the payload. *)
Definition unserialisable : http_call → outcome exn HttpResponse :=
  λ _, Raises (TypeError "Object of type set is not JSON serializable").

Definition slashed_url : string := "https://suada.ai/api/public//".

Definition listing : HttpResponse :=
  {| status_code := 200; json_ := JsonValue (VList [VStr "message"]) |}.

Definition redirected : HttpResponse :=
  {| status_code := 302; json_ := JsonValue (VDict growth_body) |}.

Definition silent_failure : HttpResponse :=
  {| status_code := 500;
     json_ := JsonValue (VDict {[ "message" := VNone ]}) |}.

End ExtraSamples.

Module ExtraServerSamples.
Import SuadaServer ServerSpec.

(** An SDK constructor that accepts every key, a setup that goes through
    and a run loop that ends. *)
Definition sdk_for_key : string → outcome exn Suada :=
  λ _, Returns (sdk_answering sales_answer).

Definition setup_done : outcome exn unit := Returns tt.

Definition serve_until_closed : SuadaMCPServer → outcome exn unit :=
  λ _, Returns tt.

End ExtraServerSamples.

(** Unfolds the monad down to pairs of an outcome and a trace. *)
Ltac run :=
  unfold mbind, eff_mbind, eff_bind, mret, eff_mret, eff_ret, lift, raise,
    try_except in *.

(** ** Properties of the direct client *)

Module ClientProps.
Import SuadaMcp ClientSpec.

Section WithNetwork.

Variable network : http_call → outcome exn HttpResponse.

(** *** The steps after the post leave the trace alone *)

Lemma parse_response_calls response calls :
  (parse_response response calls).2 = calls.
Proof.
  unfold parse_response, raise_for_status, response_json. run.
  destruct ((400 <=? status_code response) && (status_code response <? 600));
    [reflexivity |].
  destruct (json_ response) as [data | [] msg]; try reflexivity.
  destruct data; reflexivity.
Qed.

Lemma extract_error_message_calls response calls :
  (extract_error_message response calls).2 = calls.
Proof.
  destruct response as [ | | r]; try reflexivity.
  unfold extract_error_message, response_json. run.
  destruct (json_ r) as [data | [] msg]; try reflexivity.
  destruct (py_contains "message" data) as [[] | e]; try reflexivity.
  destruct (py_getitem data "message"); reflexivity.
Qed.

(** The inner [try] swallows every fault: the error text is always
    obtained. *)
Lemma extract_error_message_returns response calls :
  ∃ v, extract_error_message response calls = (Returns v, calls).
Proof.
  destruct response as [ | | r]; try (eexists; reflexivity).
  unfold extract_error_message, response_json. run.
  destruct (json_ r) as [data | [] msg]; try (eexists; reflexivity).
  destruct (py_contains "message" data) as [[] | e]; try (eexists; reflexivity).
  destruct (py_getitem data "message"); eexists; reflexivity.
Qed.

Lemma process_handler_calls e calls :
  (process_handler e calls).2 = calls.
Proof.
  destruct e as [response | c s]; [| reflexivity].
  unfold process_handler. run.
  destruct (extract_error_message_returns response calls) as [v ->].
  destruct response; reflexivity.
Qed.

(** *** The two entries into [process] *)

(** Without a truthy user identifier nothing is sent and the catch-all
    clause answers. *)
Lemma process_without_user self request calls :
  opt_truthy (opt_or (user_id request) (external_user_identifier self)) = false →
  process network self request calls = (Returns precondition_failure, calls).
Proof.
  intros Hu. unfold process, process_body. run. rewrite Hu. reflexivity.
Qed.

(** With one, the call is made and then either the handler or the parse of
    the response decides. *)
Lemma process_with_user self request calls :
  let uid := opt_or (user_id request) (external_user_identifier self) in
  let c := outbound_call self request uid in
  opt_truthy uid = true →
  process network self request calls =
    match network c with
    | Returns response =>
        try_except (parse_response response) process_handler (calls ++ [c])%list
    | Raises e => process_handler e (calls ++ [c])%list
    end.
Proof.
  intros uid c Hu. unfold process, process_body, requests_post. run.
  fold uid. rewrite Hu. fold c. cbn [negb].
  destruct (network c); reflexivity.
Qed.

(** Exactly one call leaves the client once the user identifier is there. *)
Lemma process_calls self request calls :
  let uid := opt_or (user_id request) (external_user_identifier self) in
  opt_truthy uid = true →
  (process network self request calls).2
  = (calls ++ [outbound_call self request uid])%list.
Proof.
  intros uid Hu. rewrite process_with_user by exact Hu. fold uid.
  destruct (network (outbound_call self request uid)) as [response | e].
  - unfold try_except.
    pose proof (parse_response_calls response
                  (calls ++ [outbound_call self request uid])%list) as Hp.
    destruct (parse_response response _) as [[r | e] calls'];
      cbn [snd] in Hp; subst calls'; [reflexivity |].
    apply process_handler_calls.
  - apply process_handler_calls.
Qed.

(** *** The success path *)

Lemma parse_response_success response d calls :
  status_ok (status_code response) = true →
  json_ response = JsonValue (VDict d) →
  parse_response response calls = (Returns (success_response d), calls).
Proof.
  unfold status_ok, parse_response, raise_for_status, response_json.
  intros Hs Hj. run. apply negb_true_iff in Hs. rewrite Hs, Hj. reflexivity.
Qed.

Lemma process_success self request calls response d :
  let uid := opt_or (user_id request) (external_user_identifier self) in
  let c := outbound_call self request uid in
  opt_truthy uid = true →
  network c = Returns response →
  status_ok (status_code response) = true →
  json_ response = JsonValue (VDict d) →
  process network self request calls
  = (Returns (success_response d), (calls ++ [c])%list).
Proof.
  intros uid c Hu Hn Hs Hj. rewrite process_with_user by exact Hu.
  fold uid c. rewrite Hn. unfold try_except.
  rewrite (parse_response_success _ d) by assumption. reflexivity.
Qed.

(** *** The transport clause *)

(** Only a mapping with a [message] key changes the error text: on a list
    or a string the membership test may succeed, but the subscription that
    follows raises and the bare [except] keeps the generic text. *)
Lemma extract_error_message_spec r calls :
  extract_error_message (AttrObj r) calls
  = (Returns (from_option id (VStr failed_to_communicate) (upstream_message r)),
     calls).
Proof.
  unfold extract_error_message, upstream_message, response_json. run.
  destruct (json_ r) as [data | [] msg]; try reflexivity.
  destruct data as [ | b | z | f | s | l | d]; try reflexivity.
  - unfold py_contains, py_getitem.
    destruct (is_substring "message" s); reflexivity.
  - unfold py_contains, py_getitem.
    destruct (existsb _ l); reflexivity.
  - unfold py_contains, py_getitem.
    destruct (d !! "message") as [v |] eqn:Hm.
    + rewrite bool_decide_eq_true_2 by eauto. reflexivity.
    + rewrite bool_decide_eq_false_2 by (intros [v Hv]; congruence).
      reflexivity.
Qed.

Lemma process_handler_with_response r calls :
  process_handler (RequestException (AttrObj r)) calls
  = (Returns (http_failure_response r), calls).
Proof.
  unfold process_handler. run. rewrite extract_error_message_spec.
  reflexivity.
Qed.

(** The slip of line 159: a [RequestException] whose [response] is [None]
    makes the handler itself raise. *)
Lemma process_handler_without_response calls :
  process_handler (RequestException AttrNone) calls
  = (Raises (AttributeError "'NoneType' object has no attribute 'status_code'"),
     calls).
Proof. reflexivity. Qed.

Lemma process_no_response self request calls :
  let uid := opt_or (user_id request) (external_user_identifier self) in
  let c := outbound_call self request uid in
  opt_truthy uid = true →
  network c = Raises (RequestException AttrNone) →
  process network self request calls
  = (Raises (AttributeError "'NoneType' object has no attribute 'status_code'"),
     (calls ++ [c])%list).
Proof.
  intros uid c Hu Hn. rewrite process_with_user by exact Hu.
  fold uid c. rewrite Hn. reflexivity.
Qed.

(** An HTTP error status is turned into the normalised failure. *)
Lemma process_http_error self request calls response :
  let uid := opt_or (user_id request) (external_user_identifier self) in
  let c := outbound_call self request uid in
  opt_truthy uid = true →
  network c = Returns response →
  status_ok (status_code response) = false →
  process network self request calls
  = (Returns (http_failure_response response), (calls ++ [c])%list).
Proof.
  intros uid c Hu Hn Hs. rewrite process_with_user by exact Hu.
  fold uid c. rewrite Hn.
  unfold try_except at 1, parse_response, raise_for_status. run.
  apply negb_false_iff in Hs. rewrite Hs.
  apply process_handler_with_response.
Qed.

(** Away from that slip the handler always answers, with empty content. *)
Lemma process_handler_returns e calls :
  e ≠ RequestException AttrNone →
  ∃ r, process_handler e calls = (Returns r, calls) ∧ content r = VStr "".
Proof.
  intros He. destruct e as [[ | | resp] | c s].
  - eexists. split; reflexivity.
  - congruence.
  - rewrite process_handler_with_response. eexists. split; reflexivity.
  - eexists. split; reflexivity.
Qed.

Lemma process_returns_unless_no_response self request calls :
  (∀ calls', process_body network self request calls
             ≠ (Raises (RequestException AttrNone), calls')) →
  ∃ r calls', process network self request calls = (Returns r, calls').
Proof.
  intros Hb. unfold process, try_except.
  destruct (process_body network self request calls) as [[r | e] calls'].
  - eauto.
  - destruct (process_handler_returns e calls') as (r & -> & _); [| eauto].
    intros ->. exact (Hb calls' eq_refl).
Qed.

(** *** The claims on [process] that hold for every transport *)

(** C2: when the request has no user identifier and the client was built
    without a default, [process] returns a response with empty content and
    a non-null error, and the trace of outbound calls is unchanged: the
    check precedes the HTTP request. *)
Theorem C2_missing_user_fails_locally self request calls :
  user_id request = None →
  external_user_identifier self = None →
  ∃ r,
    process network self request calls = (Returns r, calls)
    ∧ content r = VStr ""
    ∧ error r ≠ VNone
    ∧ error r = VStr ("Unexpected error: " ++ user_id_required).
Proof.
  intros Hu Hd. exists precondition_failure. split.
  - apply process_without_user. rewrite Hu, Hd. reflexivity.
  - repeat split. discriminate.
Qed.

(** C3, as amended: a failure of [process] that carries an HTTP response is
    answered with the metadata {status_code: that response's status}; a
    failure handled by the catch-all clause, such as a missing user
    identifier, is answered with the empty metadata, which has no
    status_code entry.  (A transport exception whose class has no response
    attribute would get a null status_code; one whose response is [None] is
    not covered here.) *)
Theorem C3_status_code_by_clause self request calls e calls' :
  process_body network self request calls = (Raises e, calls') →
  match e with
  | RequestException (AttrObj r) =>
      ∃ r', process network self request calls = (Returns r', calls')
            ∧ content r' = VStr ""
            ∧ metadata r' = {[ "status_code" := VInt (status_code r) ]}
  | RequestException AttrMissing =>
      ∃ r', process network self request calls = (Returns r', calls')
            ∧ content r' = VStr ""
            ∧ metadata r' = {[ "status_code" := VNone ]}
  | RequestException AttrNone => True
  | PyException _ text =>
      ∃ r', process network self request calls = (Returns r', calls')
            ∧ content r' = VStr ""
            ∧ metadata r' = ∅
            ∧ metadata r' !! "status_code" = None
            ∧ error r' = VStr ("Unexpected error: " ++ text)
  end.
Proof.
  intros Hb. unfold process, try_except. rewrite Hb.
  destruct e as [[ | | r] | c text].
  - eexists. repeat split.
  - exact I.
  - rewrite process_handler_with_response. eexists. repeat split.
  - eexists. repeat split.
Qed.

(** C5, as amended: for a 2xx answer whose body is the mapping [d],
    [process] returns the body's response field as content (empty text when
    absent), no error, and metadata holding the body verbatim next to the
    structured block; each field of the block is the body's value when the
    body has the key, whatever that value is, and the empty
    mapping/sequence/text when it has not, so a field absent from the body
    is never null. *)
Theorem C5_success_normalisation self request calls response d :
  let uid := opt_or (user_id request) (external_user_identifier self) in
  let c := outbound_call self request uid in
  opt_truthy uid = true →
  network c = Returns response →
  200 ≤ status_code response < 300 →
  json_ response = JsonValue (VDict d) →
  ∃ r sd,
    process network self request calls = (Returns r, (calls ++ [c])%list)
    ∧ error r = VNone
    ∧ content r = from_option id (VStr "") (d !! "response")
    ∧ metadata r = {[ "suada_data" := VDict sd; "raw_response" := VDict d ]}
    ∧ ∀ k, k ∈ structured_fields →
        sd !! k = Some (from_option id (field_default k) (d !! k))
        ∧ (d !! k = None → sd !! k ≠ Some VNone).
Proof.
  intros uid c Hu Hn Hs Hj.
  eexists (success_response d), _. split; [| split; [| split; [| split]]].
  - apply (process_success self request calls response d); try assumption.
    unfold status_ok. apply negb_true_iff, andb_false_iff. left.
    apply Z.leb_gt. lia.
  - reflexivity.
  - reflexivity.
  - reflexivity.
  - intros k Hk. unfold structured_fields in Hk.
    repeat (apply elem_of_cons in Hk as [-> | Hk]);
      [ .. | by apply elem_of_nil in Hk ];
      (split; [reflexivity |]); intros ->; discriminate.
Qed.

(** C6: for the request with query "What's our revenue trend?", context
    {"timeframe": "last_quarter"} and user_id "u1", the one call that
    [process] makes carries exactly the payload {"message": ...,
    "externalUserIdentifier": "u1", "context": {"timeframe":
    "last_quarter"}}, which has no conversationId key; with conversation_id
    "c1" added to the request the payload is the same one extended with
    "conversationId": "c1". *)
Theorem C6_revenue_payload self calls :
  (process network self revenue_request calls).2
  = (calls ++ [ {| url := base_url self ++ "/chat";
                   headers := _get_headers self;
                   json := revenue_payload |} ])%list
  ∧ revenue_payload !! "conversationId" = None
  ∧ (process network self revenue_request_c1 calls).2
    = (calls ++ [ {| url := base_url self ++ "/chat";
                     headers := _get_headers self;
                     json := revenue_payload_c1 |} ])%list
  ∧ revenue_payload_c1 = <[ "conversationId" := VStr "c1" ]> revenue_payload.
Proof.
  split; [| split; [| split]].
  - rewrite process_calls by reflexivity. reflexivity.
  - reflexivity.
  - rewrite process_calls by reflexivity. reflexivity.
  - reflexivity.
Qed.

(** C10: identifiers are tested for truthiness.  A request whose
    conversation_id is the empty string yields a payload without a
    conversationId key, in every call [process] makes for it; a request
    whose user_id is the empty string, on a client whose default is absent
    or empty too, gets the response of the missing-identifier check and
    nothing is sent. *)
Theorem C10_empty_identifiers_are_missing self request calls :
  (conversation_id request = Some "" →
     (∀ uid, build_payload request uid !! "conversationId" = None)
     ∧ ∀ c, c ∈ (process network self request []).2 →
            json c !! "conversationId" = None)
  ∧ (user_id request = Some "" →
     external_user_identifier self = None
     ∨ external_user_identifier self = Some "" →
     process network self request calls = (Returns precondition_failure, calls)).
Proof.
  split.
  - intros Hc.
    assert (Hp : ∀ uid, build_payload request uid !! "conversationId" = None).
    { intros uid. unfold build_payload. rewrite Hc. reflexivity. }
    split; [exact Hp |]. intros c.
    destruct (opt_truthy (opt_or (user_id request)
                            (external_user_identifier self))) eqn:Hu.
    + rewrite process_calls by exact Hu. cbn [app].
      intros ->%list_elem_of_singleton. apply Hp.
    + rewrite process_without_user by exact Hu. cbn [snd].
      intros []%elem_of_nil.
  - intros Hu Hd. apply process_without_user. rewrite Hu.
    destruct Hd as [-> | ->]; reflexivity.
Qed.

End WithNetwork.

(** *** Sample runs *)

Lemma C2_missing_user_witness :
  ∃ r,
    process connection_refused client anonymous_request [] = (Returns r, [])
    ∧ content r = VStr ""
    ∧ error r ≠ VNone
    ∧ error r = VStr ("Unexpected error: " ++ user_id_required).
Proof.
  exact (C2_missing_user_fails_locally connection_refused client
           anonymous_request [] eq_refl eq_refl).
Defined.

(** C1, at a transport that gets no response: [requests.post] raises a
    [ConnectionError], the transport clause reads [e.response.status_code]
    on a [None] response, and the [AttributeError] raised inside the clause
    leaves [process]; no response is returned. *)
Theorem C1_connection_error_escapes :
  process connection_refused client revenue_request []
  = (Raises (AttributeError "'NoneType' object has no attribute 'status_code'"),
     [outbound_call client revenue_request (Some "u1")])
  ∧ ∀ r calls,
      process connection_refused client revenue_request [] ≠ (Returns r, calls).
Proof.
  assert (H : process connection_refused client revenue_request []
    = (Raises (AttributeError "'NoneType' object has no attribute 'status_code'"),
       [outbound_call client revenue_request (Some "u1")])).
  { apply (process_no_response connection_refused client revenue_request []);
      reflexivity. }
  split; [exact H |]. intros r calls. rewrite H. discriminate.
Qed.

(** C4, at a transport failure whose error carries no response and so no
    message field: on the client with a default user, the request without
    an identifier of its own is sent, the post fails, and [process] raises
    instead of returning the generic failed-to-communicate text. *)
Theorem C4_no_response_gives_no_error_text :
  process connection_refused client_with_default anonymous_request []
  = (Raises (AttributeError "'NoneType' object has no attribute 'status_code'"),
     [outbound_call client_with_default anonymous_request (Some "example_user")])
  ∧ ¬ ∃ r calls,
        process connection_refused client_with_default anonymous_request []
        = (Returns r, calls)
        ∧ error r = VStr failed_to_communicate.
Proof.
  assert (H : process connection_refused client_with_default anonymous_request []
    = (Raises (AttributeError "'NoneType' object has no attribute 'status_code'"),
       [outbound_call client_with_default anonymous_request
          (Some "example_user")])).
  { apply (process_no_response connection_refused client_with_default
             anonymous_request []); reflexivity. }
  split; [exact H |]. intros (r & calls & Hr & _). rewrite H in Hr.
  discriminate.
Qed.

(** What does hold of C4: a failure that carries a response is answered
    with the [message] of a mapping body, and with the generic text for
    every other body. *)
Example unknown_user_message :
  process (replies 404 (json_ not_found)) client revenue_request []
  = (Returns {| content := VStr "";
                metadata := {[ "status_code" := VInt 404 ]};
                error := VStr "Unknown user" |},
     [outbound_call client revenue_request (Some "u1")]).
Proof.
  apply (process_http_error (replies 404 (json_ not_found)) client
           revenue_request [] not_found); reflexivity.
Qed.

Example bad_gateway_page :
  process (replies 502 (JsonDecodeError true "Expecting value")) client
    revenue_request []
  = (Returns {| content := VStr "";
                metadata := {[ "status_code" := VInt 502 ]};
                error := VStr failed_to_communicate |},
     [outbound_call client revenue_request (Some "u1")]).
Proof.
  apply (process_http_error (replies 502 _) client revenue_request []
           {| status_code := 502;
              json_ := JsonDecodeError true "Expecting value" |});
    reflexivity.
Qed.

(** C3 as stated fails: the response to a request without user identifier
    reports an error, and its metadata has no status_code entry at all. *)
Lemma C3_no_status_code_entry :
  ∃ r,
    process connection_refused client anonymous_request [] = (Returns r, [])
    ∧ error r ≠ VNone
    ∧ metadata r !! "status_code" = None
    ∧ metadata r = ∅.
Proof.
  exists precondition_failure. split.
  - apply process_without_user. reflexivity.
  - repeat split. discriminate.
Qed.

Lemma C3_status_code_witness :
  ∃ r',
    process (replies 404 (json_ not_found)) client revenue_request []
    = (Returns r', [outbound_call client revenue_request (Some "u1")])
    ∧ content r' = VStr ""
    ∧ metadata r' = {[ "status_code" := VInt (status_code not_found) ]}.
Proof.
  exact (C3_status_code_by_clause (replies 404 (json_ not_found)) client
           revenue_request [] (RequestException (AttrObj not_found))
           [outbound_call client revenue_request (Some "u1")] eq_refl).
Defined.

(** C5 as stated fails: a body with "metrics": null is a successful body,
    and the null is kept in the structured block. *)
Lemma C5_null_field_is_kept :
  ∃ r sd,
    process (replies 200 (JsonValue (VDict null_metrics_body))) client
      revenue_request []
    = (Returns r, [outbound_call client revenue_request (Some "u1")])
    ∧ error r = VNone
    ∧ metadata r !! "suada_data" = Some (VDict sd)
    ∧ sd !! "metrics" = Some VNone.
Proof.
  eexists (success_response null_metrics_body), _. split; [| split; [| split]].
  - apply (process_success (replies 200 _) client revenue_request []
             {| status_code := 200;
                json_ := JsonValue (VDict null_metrics_body) |});
      reflexivity.
  - reflexivity.
  - reflexivity.
  - reflexivity.
Qed.

Lemma C5_success_witness :
  ∃ r sd,
    process (replies 200 (JsonValue (VDict growth_body))) client
      revenue_request []
    = (Returns r, [outbound_call client revenue_request (Some "u1")])
    ∧ error r = VNone
    ∧ content r = from_option id (VStr "") (growth_body !! "response")
    ∧ metadata r = {[ "suada_data" := VDict sd;
                      "raw_response" := VDict growth_body ]}
    ∧ ∀ k, k ∈ structured_fields →
        sd !! k = Some (from_option id (field_default k) (growth_body !! k))
        ∧ (growth_body !! k = None → sd !! k ≠ Some VNone).
Proof.
  apply (C5_success_normalisation (replies 200 (JsonValue (VDict growth_body)))
           client revenue_request []
           {| status_code := 200; json_ := JsonValue (VDict growth_body) |}
           growth_body).
  - reflexivity.
  - reflexivity.
  - cbn [status_code]. lia.
  - reflexivity.
Defined.

Lemma C10_empty_identifiers_witness :
  ((∀ uid, build_payload blank_conversation_request uid !! "conversationId" = None)
   ∧ ∀ c, c ∈ (process connection_refused client blank_conversation_request []).2
          → json c !! "conversationId" = None)
  ∧ process connection_refused client_with_default
      {| query := "q"; context := ∅; user_id := Some "";
         conversation_id := None; req_metadata := ∅ |} []
    ≠ (Returns precondition_failure, [])
  ∧ process connection_refused client blank_request []
    = (Returns precondition_failure, []).
Proof.
  split; [| split].
  - exact (proj1 (C10_empty_identifiers_are_missing connection_refused client
                    blank_conversation_request []) eq_refl).
  - discriminate.
  - exact (proj2 (C10_empty_identifiers_are_missing connection_refused client
                    blank_request []) eq_refl (or_introl eq_refl)).
Defined.

(** The call made for the request with the empty conversation identifier. *)
Example blank_conversation_call :
  (process connection_refused client blank_conversation_request []).2
  = [ {| url := "https://suada.ai/api/public/chat";
         headers := _get_headers client;
         json := {[ "message" := VStr "How many orders shipped?";
                    "externalUserIdentifier" := VStr "u1";
                    "context" := VDict ∅ ]} |} ].
Proof. rewrite process_calls by reflexivity. reflexivity. Qed.

End ClientProps.

(** ** Properties of the tool server *)

Module ServerProps.
Import SuadaServer ServerSpec.

(** [x or default] is null only if the default is. *)
Lemma py_or_not_none (v default : value) :
  default ≠ VNone → py_or v default ≠ VNone.
Proof.
  intros Hd. unfold py_or. destruct (truthy v) eqn:Hv; [| exact Hd].
  intros ->. discriminate Hv.
Qed.

(** A [try] whose only clause wraps the fault: the body decides. *)
Lemma wrapped_handler {A} (body : eff ChatPayload exn A) (prefix : string) calls :
  try_except body (λ e, raise (ToolExecutionError (prefix ++ str e))) calls
  = match body calls with
    | (Returns a, calls') => (Returns a, calls')
    | (Raises e, calls') =>
        (Raises (ToolExecutionError (prefix ++ str e)), calls')
    end.
Proof. unfold try_except. destruct (body calls) as [[a | e] calls']; reflexivity. Qed.

(** The body of [data_retrieval], by cases on what the SDK does. *)
Lemma data_retrieval_body_cases self data_source query calls :
  let text := retrieval_instruction data_source query in
  data_retrieval_body self data_source query calls =
    match payload_fault (suada self) text with
    | Some e => (Raises e, calls)
    | None =>
        match chat_api (suada self) {| message := text |} with
        | Raises e => (Raises e, (calls ++ [ {| message := text |} ])%list)
        | Returns o =>
            match getattr o "response" with
            | Raises e => (Raises e, (calls ++ [ {| message := text |} ])%list)
            | Returns data =>
                (Returns (retrieval_result data data_source query),
                 (calls ++ [ {| message := text |} ])%list)
            end
        end
    end.
Proof.
  intros text. unfold data_retrieval_body, new_ChatPayload, chat. fold text. run.
  destruct (payload_fault (suada self) text); [reflexivity |].
  destruct (chat_api (suada self) _) as [o | e]; [| reflexivity].
  destruct (getattr o "response"); reflexivity.
Qed.

(** The body of [business_analyst] when the SDK answers with an object that
    has the five attributes. *)
Lemma business_analyst_body_success self query calls o r m i rc rk :
  payload_fault (suada self) query = None →
  chat_api (suada self) {| message := query |} = Returns o →
  attrs o !! "response" = Some r →
  attrs o !! "metrics" = Some m →
  attrs o !! "insights" = Some i →
  attrs o !! "recommendations" = Some rc →
  attrs o !! "risks" = Some rk →
  business_analyst_body self query calls
  = (Returns (analyst_result r m i rc rk),
     (calls ++ [ {| message := query |} ])%list).
Proof.
  intros Hp Hc Hr Hm Hi Hrc Hrk.
  unfold business_analyst_body, new_ChatPayload, chat, getattr. run.
  rewrite Hp, Hc, Hr, Hm, Hi, Hrc, Hrk. reflexivity.
Qed.

(** C7: in both tool handlers, whatever exception [e] the body raises (from
    the payload constructor, the SDK chat call or the reading of the
    response), the handler raises one [ToolExecutionError] whose message is
    the tool's prefix followed by [str(e)]; a handler never raises anything
    of another class, and a body that returns is left alone. *)
Theorem C7_tool_faults_are_uniform self :
  (∀ query calls,
     match business_analyst_body self query calls with
     | (Returns r, calls') =>
         business_analyst self query calls = (Returns r, calls')
     | (Raises e, calls') =>
         business_analyst self query calls
         = (Raises (ToolExecutionError
                      ("Failed to get business insights: " ++ str e)), calls')
     end)
  ∧ (∀ data_source query calls,
     match data_retrieval_body self data_source query calls with
     | (Returns r, calls') =>
         data_retrieval self data_source query calls = (Returns r, calls')
     | (Raises e, calls') =>
         data_retrieval self data_source query calls
         = (Raises (ToolExecutionError
                      ("Failed to retrieve data: " ++ str e)), calls')
     end)
  ∧ (∀ query calls e calls',
     business_analyst self query calls = (Raises e, calls') →
     cls e = "ToolExecutionError")
  ∧ (∀ data_source query calls e calls',
     data_retrieval self data_source query calls = (Raises e, calls') →
     cls e = "ToolExecutionError").
Proof.
  split; [| split; [| split]].
  - intros query calls. unfold business_analyst. rewrite wrapped_handler.
    destruct (business_analyst_body self query calls) as [[r | e] calls'];
      reflexivity.
  - intros data_source query calls. unfold data_retrieval.
    rewrite wrapped_handler.
    destruct (data_retrieval_body self data_source query calls)
      as [[r | e] calls']; reflexivity.
  - intros query calls e calls'. unfold business_analyst.
    rewrite wrapped_handler.
    destruct (business_analyst_body self query calls) as [[r | e0] calls0];
      intros [= <- _]; reflexivity.
  - intros data_source query calls e calls'. unfold data_retrieval.
    rewrite wrapped_handler.
    destruct (data_retrieval_body self data_source query calls)
      as [[r | e0] calls0]; intros [= <- _]; reflexivity.
Qed.

(** C8: [data_retrieval] passes to the SDK chat call exactly the text
    "Retrieve data from {data_source}: {query}" (every call it records
    carries it, and it records one as soon as the payload is built); when
    it returns, the result is {data: the response text of the chat answer,
    metadata: {source: data_source, query: query}}, and it does return that
    whenever the chat call answers.  For ("sales_db", "top products") the
    text is "Retrieve data from sales_db: top products". *)
Theorem C8_data_retrieval_contract self data_source query calls :
  let text := "Retrieve data from " ++ data_source ++ ": " ++ query in
  (∀ c, c ∈ (data_retrieval self data_source query []).2 → message c = text)
  ∧ (payload_fault (suada self) text = None →
     (data_retrieval self data_source query calls).2
     = (calls ++ [ {| message := text |} ])%list)
  ∧ (∀ r calls',
     data_retrieval self data_source query calls = (Returns r, calls') →
     calls' = (calls ++ [ {| message := text |} ])%list
     ∧ ∃ o data,
         chat_api (suada self) {| message := text |} = Returns o
         ∧ attrs o !! "response" = Some data
         ∧ r = {[ "data" := data;
                  "metadata" := VDict {[ "source" := VStr data_source;
                                         "query" := VStr query ]} ]})
  ∧ (∀ o data,
     payload_fault (suada self) text = None →
     chat_api (suada self) {| message := text |} = Returns o →
     attrs o !! "response" = Some data →
     data_retrieval self data_source query calls
     = (Returns {[ "data" := data;
                   "metadata" := VDict {[ "source" := VStr data_source;
                                          "query" := VStr query ]} ]},
        (calls ++ [ {| message := text |} ])%list))
  ∧ retrieval_instruction "sales_db" "top products"
    = "Retrieve data from sales_db: top products".
Proof.
  intros text.
  assert (Hrun : ∀ calls0,
    data_retrieval self data_source query calls0 =
      match payload_fault (suada self) text with
      | Some e =>
          (Raises (ToolExecutionError ("Failed to retrieve data: " ++ str e)),
           calls0)
      | None =>
          match chat_api (suada self) {| message := text |} with
          | Raises e =>
              (Raises (ToolExecutionError ("Failed to retrieve data: " ++ str e)),
               (calls0 ++ [ {| message := text |} ])%list)
          | Returns o =>
              match getattr o "response" with
              | Raises e =>
                  (Raises (ToolExecutionError
                             ("Failed to retrieve data: " ++ str e)),
                   (calls0 ++ [ {| message := text |} ])%list)
              | Returns data =>
                  (Returns (retrieval_result data data_source query),
                   (calls0 ++ [ {| message := text |} ])%list)
              end
          end
      end).
  { intros calls0. unfold data_retrieval. rewrite wrapped_handler.
    rewrite data_retrieval_body_cases. fold text.
    change (retrieval_instruction data_source query) with text.
    destruct (payload_fault (suada self) text); [reflexivity |].
    destruct (chat_api (suada self) _) as [o | e]; [| reflexivity].
    destruct (getattr o "response"); reflexivity. }
  split; [| split; [| split; [| split]]].
  - intros c. rewrite Hrun.
    destruct (payload_fault (suada self) text).
    { intros []%elem_of_nil. }
    destruct (chat_api (suada self) _) as [o | e];
      [destruct (getattr o "response") |]; cbn [snd app];
      intros ->%list_elem_of_singleton; reflexivity.
  - intros Hp. rewrite Hrun, Hp.
    destruct (chat_api (suada self) _) as [o | e];
      [destruct (getattr o "response") |]; reflexivity.
  - intros r calls'. rewrite Hrun.
    destruct (payload_fault (suada self) text); [discriminate |].
    destruct (chat_api (suada self) _) as [o | e]; [| discriminate].
    unfold getattr.
    destruct (attrs o !! "response") as [data |] eqn:Hd; [| discriminate].
    intros [= <- <-]. split; [reflexivity |]. exists o, data. auto.
  - intros o data Hp Hc Hd. rewrite Hrun, Hp, Hc. unfold getattr.
    rewrite Hd. reflexivity.
  - reflexivity.
Qed.

(** C9, as amended: when the SDK answers with an object that has the five
    attributes, [business_analyst] returns the mapping of the five keys in
    which response is the SDK's response attribute unchanged (null if the
    SDK's is null) and each of metrics, insights, recommendations and risks
    is the SDK's attribute when that is truthy and the empty
    mapping/sequence otherwise; so none of those four is ever null. *)
Theorem C9_business_analyst_mapping self query calls o r m i rc rk :
  payload_fault (suada self) query = None →
  chat_api (suada self) {| message := query |} = Returns o →
  attrs o !! "response" = Some r →
  attrs o !! "metrics" = Some m →
  attrs o !! "insights" = Some i →
  attrs o !! "recommendations" = Some rc →
  attrs o !! "risks" = Some rk →
  ∃ result,
    business_analyst self query calls
    = (Returns result, (calls ++ [ {| message := query |} ])%list)
    ∧ result = {[ "response" := r;
                  "metrics" := if truthy m then m else VDict ∅;
                  "insights" := if truthy i then i else VList [];
                  "recommendations" := if truthy rc then rc else VList [];
                  "risks" := if truthy rk then rk else VList [] ]}
    ∧ result !! "response" = Some r
    ∧ ∀ k, k ∈ collection_fields →
        ∃ v, result !! k = Some v ∧ v ≠ VNone.
Proof.
  intros Hp Hc Hr Hm Hi Hrc Hrk. exists (analyst_result r m i rc rk).
  split; [| split; [| split]].
  - unfold business_analyst. rewrite wrapped_handler.
    rewrite (business_analyst_body_success self query calls o r m i rc rk)
      by assumption.
    reflexivity.
  - reflexivity.
  - reflexivity.
  - intros k Hk. unfold collection_fields in Hk.
    repeat (apply elem_of_cons in Hk as [-> | Hk]);
      [ .. | by apply elem_of_nil in Hk ];
      (eexists; split; [reflexivity |]); by apply py_or_not_none.
Qed.

(** *** Sample runs *)

Example payload_fault_is_wrapped :
  business_analyst
    (server_of (sdk_rejecting (Exception "ValidationError" "message too long")))
    "How are sales?" []
  = (Raises (ToolExecutionError
               "Failed to get business insights: message too long"), []).
Proof. reflexivity. Qed.

Example chat_fault_is_wrapped :
  data_retrieval (server_of (sdk_failing upstream_timeout))
    "sales_db" "top products" []
  = (Raises (ToolExecutionError "Failed to retrieve data: timed out"),
     [ {| message := "Retrieve data from sales_db: top products" |} ]).
Proof. reflexivity. Qed.

Example missing_attribute_is_wrapped :
  business_analyst
    (server_of (sdk_answering {| class_name := "str"; attrs := ∅ |}))
    "How are sales?" []
  = (Raises (ToolExecutionError
               "Failed to get business insights: 'str' object has no attribute 'response'"),
     [ {| message := "How are sales?" |} ]).
Proof. reflexivity. Qed.

Lemma C8_sales_db_witness :
  data_retrieval (server_of (sdk_answering sales_answer))
    "sales_db" "top products" []
  = (Returns {[ "data" := VStr "1. Widgets 2. Gadgets";
                "metadata" := VDict {[ "source" := VStr "sales_db";
                                       "query" := VStr "top products" ]} ]},
     [ {| message := "Retrieve data from sales_db: top products" |} ]).
Proof.
  exact (proj1 (proj2 (proj2 (proj2
           (C8_data_retrieval_contract (server_of (sdk_answering sales_answer))
              "sales_db" "top products" []))))
           sales_answer (VStr "1. Widgets 2. Gadgets")
           eq_refl eq_refl eq_refl).
Defined.

(** C9 as stated fails: an SDK response whose response attribute is null
    yields a result whose response field is null. *)
Lemma C9_null_response_is_kept :
  ∃ result,
    business_analyst (server_of (sdk_answering silent_answer))
      "How are sales?" []
    = (Returns result, [ {| message := "How are sales?" |} ])
    ∧ result !! "response" = Some VNone.
Proof.
  exists (analyst_result VNone VNone VNone VNone VNone). split; reflexivity.
Qed.

Lemma C9_business_analyst_witness :
  ∃ result,
    business_analyst (server_of (sdk_answering sales_answer))
      "How are sales?" []
    = (Returns result, [ {| message := "How are sales?" |} ])
    ∧ result = {[ "response" := VStr "1. Widgets 2. Gadgets";
                  "metrics" := VDict ∅;
                  "insights" := VList [VStr "Widgets lead"];
                  "recommendations" := VList [];
                  "risks" := VList [] ]}
    ∧ result !! "response" = Some (VStr "1. Widgets 2. Gadgets")
    ∧ ∀ k, k ∈ collection_fields →
        ∃ v, result !! k = Some v ∧ v ≠ VNone.
Proof.
  exact (C9_business_analyst_mapping (server_of (sdk_answering sales_answer))
           "How are sales?" [] sales_answer
           (VStr "1. Widgets 2. Gadgets") VNone (VList [VStr "Widgets lead"])
           VNone VNone eq_refl eq_refl eq_refl eq_refl eq_refl eq_refl eq_refl).
Defined.

End ServerProps.

(** ** Further properties of the direct client *)

Module ClientExtra.
Import SuadaMcp ClientSpec ExtraSpec ClientProps.

(** *** [rstrip] *)

Lemma append_nil_l (t : string) : ("" ++ t)%string = t.
Proof. reflexivity. Qed.

Lemma append_cons (a : ascii) (u t : string) :
  (String a u ++ t)%string = String a (u ++ t).
Proof. reflexivity. Qed.

Lemma append_single_not_empty (u : string) (c : ascii) :
  (u ++ String c "")%string ≠ "".
Proof. destruct u; discriminate. Qed.

Lemma rstrip_decompose (c : ascii) (s : string) :
  ∃ t, s = (rstrip c s ++ t)%string ∧ only_char c t = true.
Proof.
  induction s as [| a rest (t & Hrest & Ht)].
  - exists "". split; reflexivity.
  - cbn [rstrip]. destruct (rstrip c rest) as [| b r] eqn:Hr.
    + rewrite append_nil_l in Hrest. subst t.
      destruct (Ascii.eqb a c) eqn:Hac.
      * exists (String a rest). split; [reflexivity |].
        cbn [only_char]. rewrite Hac, Ht. reflexivity.
      * exists rest. split; [reflexivity | exact Ht].
    + exists t. split; [| exact Ht].
      rewrite append_cons, <- Hrest. reflexivity.
Qed.

Lemma rstrip_no_trailing (c : ascii) (s u : string) :
  rstrip c s ≠ (u ++ String c "")%string.
Proof.
  revert u. induction s as [| a rest IH]; intros u.
  - cbn [rstrip]. intros H. symmetry in H.
    exact (append_single_not_empty _ _ H).
  - cbn [rstrip]. destruct (rstrip c rest) as [| b r] eqn:Hr.
    + destruct (Ascii.eqb a c) eqn:Hac.
      * intros H. symmetry in H. exact (append_single_not_empty _ _ H).
      * destruct u as [| a' u'].
        -- rewrite append_nil_l. intros [= ->].
           rewrite Ascii.eqb_refl in Hac. discriminate.
        -- rewrite append_cons. intros [= _ H]. symmetry in H.
           exact (append_single_not_empty _ _ H).
    + destruct u as [| a' u'].
      * rewrite append_nil_l. intros [= _ H].
      * rewrite append_cons. intros [= _ H]. exact (IH u' H).
Qed.

Lemma rstrip_fixed (c : ascii) (s : string) :
  (∀ u, s ≠ (u ++ String c "")%string) → rstrip c s = s.
Proof.
  induction s as [| a rest IH]; intros Hs; [reflexivity |].
  cbn [rstrip]. rewrite IH.
  - destruct rest as [| b r]; [| reflexivity].
    destruct (Ascii.eqb a c) eqn:Hac; [| reflexivity].
    apply Ascii.eqb_eq in Hac. subst a. destruct (Hs ""). reflexivity.
  - intros u ->. exact (Hs (String a u) eq_refl).
Qed.

(** *** What [parse_response] does, by status and body *)

Lemma parse_response_cases response calls :
  parse_response response calls =
    if status_ok (status_code response) then
      match json_ response with
      | JsonValue (VDict d) => (Returns (success_response d), calls)
      | JsonValue v =>
          (Raises (AttributeError
                     ("'" ++ type_name v ++ "' object has no attribute 'get'")),
           calls)
      | JsonDecodeError true _ => (Raises (RequestException AttrNone), calls)
      | JsonDecodeError false msg =>
          (Raises (PyException "JSONDecodeError" msg), calls)
      end
    else (Raises (RequestException (AttrObj response)), calls).
Proof.
  unfold status_ok, parse_response, raise_for_status, response_json. run.
  destruct ((400 <=? status_code response) && (status_code response <? 600));
    [reflexivity |].
  cbn [negb]. destruct (json_ response) as [data | [] msg]; try reflexivity.
  destruct data; reflexivity.
Qed.

Section WithNetwork.

Variable network : http_call → outcome exn HttpResponse.

(** The whole of [process], by cases on the user identifier, the transport,
    the status and the body. *)
Lemma process_cases self request calls :
  let uid := opt_or (user_id request) (external_user_identifier self) in
  let c := outbound_call self request uid in
  process network self request calls =
    if opt_truthy uid then
      match network c with
      | Raises (RequestException (AttrObj r)) =>
          (Returns (http_failure_response r), (calls ++ [c])%list)
      | Raises (RequestException AttrNone) =>
          (Raises escaped_fault, (calls ++ [c])%list)
      | Raises (RequestException AttrMissing) =>
          (Returns {| content := VStr "";
                      metadata := {[ "status_code" := VNone ]};
                      error := VStr failed_to_communicate |},
           (calls ++ [c])%list)
      | Raises (PyException _ text) =>
          (Returns (unexpected_error text), (calls ++ [c])%list)
      | Returns response =>
          if status_ok (status_code response) then
            match json_ response with
            | JsonValue (VDict d) =>
                (Returns (success_response d), (calls ++ [c])%list)
            | JsonValue v =>
                (Returns (unexpected_error
                            ("'" ++ type_name v
                             ++ "' object has no attribute 'get'")),
                 (calls ++ [c])%list)
            | JsonDecodeError true _ =>
                (Raises escaped_fault, (calls ++ [c])%list)
            | JsonDecodeError false msg =>
                (Returns (unexpected_error msg), (calls ++ [c])%list)
            end
          else (Returns (http_failure_response response), (calls ++ [c])%list)
      end
    else (Returns precondition_failure, calls).
Proof.
  intros uid c. destruct (opt_truthy uid) eqn:Hu.
  - rewrite (process_with_user network self request calls Hu). fold uid c.
    destruct (network c) as [response | [[ | | r] | cls text]].
    + unfold try_except. rewrite parse_response_cases.
      destruct (status_ok (status_code response)).
      * destruct (json_ response) as [[ | b | z | f | t | l | d] | [] msg];
          reflexivity.
      * apply process_handler_with_response.
    + reflexivity.
    + reflexivity.
    + apply process_handler_with_response.
    + reflexivity.
  - apply process_without_user. exact Hu.
Qed.

End WithNetwork.

(** *** The constructor *)

(** X1: [SuadaMCP.__init__] takes the key from the argument when that is a
    non-empty text and from the environment otherwise; a client that it
    returns has a non-empty key and the default user identifier it was
    given; it raises, and then the ValueError of line 68, exactly when
    neither source has a non-empty key. *)
Theorem init_key_resolution (key env : option string) (url : string)
    (ext : option string) :
  (∀ c, init key env url ext = Returns c →
     api_key c ≠ ""
     ∧ (key = Some (api_key c)
        ∨ (opt_truthy key = false ∧ env = Some (api_key c)))
     ∧ external_user_identifier c = ext)
  ∧ ((∃ e, init key env url ext = Raises e)
     ↔ opt_truthy key = false ∧ opt_truthy env = false)
  ∧ (∀ e, init key env url ext = Raises e →
     e = ValueError "Suada API key is required. Provide it as an argument or set SUADA_API_KEY environment variable.").
Proof.
  assert (Hinit : init key env url ext =
    match opt_or key env with
    | Some (String a k) =>
        Returns {| api_key := String a k;
                   base_url := rstrip "/" url;
                   external_user_identifier := ext |}
    | _ => Raises (ValueError "Suada API key is required. Provide it as an argument or set SUADA_API_KEY environment variable.")
    end).
  { unfold init. destruct (opt_or key env) as [[| a k] |]; reflexivity. }
  rewrite Hinit. clear Hinit. unfold opt_or.
  destruct key as [[| a k] |]; cbn [opt_truthy String.eqb negb].
  1, 3: destruct env as [[| b k'] |]; cbn [opt_truthy String.eqb negb].
  all: split; [| split].
  all: try (intros c [= <-]; cbn; repeat split; auto; discriminate).
  all: try (intros c [=]).
  all: try (intros e [= <-]; reflexivity).
  all: try (intros e [=]).
  all: try (split; [intros _; split; reflexivity | intros _; eexists; reflexivity]).
  all: split; [intros [e [=]] | intros [H1 H2]; discriminate].
Qed.

(** X2: the base URL of a constructed client is the given one without its
    trailing slashes: it does not end in a slash, what was cut off is
    slashes only, and a URL that has no trailing slash is kept as it is. *)
Theorem init_strips_trailing_slashes (key env : option string) (url : string)
    (ext : option string) c :
  init key env url ext = Returns c →
  (∀ u, base_url c ≠ (u ++ "/")%string)
  ∧ (∃ t, url = (base_url c ++ t)%string ∧ only_char "/" t = true)
  ∧ ((∀ u, url ≠ (u ++ "/")%string) → base_url c = url)
  ∧ rstrip "/" (base_url c) = base_url c.
Proof.
  intros Hc.
  assert (Hb : base_url c = rstrip "/" url).
  { unfold init in Hc. destruct (opt_or key env); [| discriminate].
    destruct (negb _); [discriminate |]. injection Hc as <-. reflexivity. }
  rewrite Hb. split; [| split; [| split]].
  - intros u. apply rstrip_no_trailing.
  - apply rstrip_decompose.
  - apply rstrip_fixed.
  - apply rstrip_fixed. intros u. apply rstrip_no_trailing.
Qed.

Section WithNetwork.

Variable network : http_call → outcome exn HttpResponse.

(** *** The outbound call *)

(** X3: [process] makes at most one [requests.post] per invocation,
    whatever the transport does with it (response, HTTP error, exception):
    exactly one when the request or the client supplies a non-empty user
    identifier, none otherwise.  Nothing is ever retried. *)
Theorem process_sends_at_most_once self request calls :
  let uid := opt_or (user_id request) (external_user_identifier self) in
  (process network self request calls).2
  = (calls ++ if opt_truthy uid
              then [outbound_call self request uid]
              else [])%list.
Proof.
  intros uid. destruct (opt_truthy uid) eqn:Hu.
  - apply process_calls. exact Hu.
  - rewrite process_without_user by exact Hu. cbn [snd].
    rewrite app_nil_r. reflexivity.
Qed.

(** X4: the call of a client built by the constructor goes to the stripped
    base URL followed by "/chat", with the four headers of [_get_headers]
    and no other: the bearer authorization of the resolved key, the two
    JSON content headers and the user agent. *)
Theorem constructed_client_call (key env : option string) (url : string)
    (ext : option string) c request calls :
  init key env url ext = Returns c →
  opt_truthy (opt_or (user_id request) ext) = true →
  ∃ call,
    (process network c request calls).2 = (calls ++ [call])%list
    ∧ SuadaMcp.url call = (rstrip "/" url ++ "/chat")%string
    ∧ headers call !! "Authorization" = Some ("Bearer " ++ api_key c)%string
    ∧ headers call !! "Content-Type" = Some "application/json"
    ∧ headers call !! "Accept" = Some "application/json"
    ∧ headers call !! "User-Agent" = Some "SuadaMCP/1.0 Python"
    ∧ dom (headers call)
      = {[ "Authorization"; "Content-Type"; "Accept"; "User-Agent" ]}.
Proof.
  intros Hc Hu.
  assert (Hb : base_url c = rstrip "/" url ∧ external_user_identifier c = ext).
  { unfold init in Hc. destruct (opt_or key env); [| discriminate].
    destruct (negb _); [discriminate |]. injection Hc as <-. split; reflexivity. }
  destruct Hb as [Hb He].
  exists (outbound_call c request
            (opt_or (user_id request) (external_user_identifier c))).
  split; [apply process_calls; rewrite He; exact Hu |].
  cbn [SuadaMcp.url headers outbound_call]. rewrite Hb.
  unfold _get_headers. repeat split.
Qed.

(** the payload of a call has the keys message, externalUserIdentifier
    and context, holding the query, the user identifier and the context of
    the request unchanged, and the key conversationId exactly when the
    request has a non-empty conversation identifier; it has no other key. *)
Lemma build_payload_contract request uid :
  let p := build_payload request uid in
  p !! "message" = Some (VStr (query request))
  ∧ p !! "externalUserIdentifier" = Some (opt_value uid)
  ∧ p !! "context" = Some (VDict (context request))
  ∧ p !! "conversationId"
    = (if opt_truthy (conversation_id request)
       then Some (opt_value (conversation_id request)) else None)
  ∧ dom p = (if opt_truthy (conversation_id request)
             then {[ "message"; "externalUserIdentifier"; "context";
                     "conversationId" ]}
             else {[ "message"; "externalUserIdentifier"; "context" ]}).
Proof.
  unfold build_payload. destruct (opt_truthy (conversation_id request));
    repeat split.
Qed.

(** X5: [process] never reads the metadata of the request: two requests
    that differ in it only get the same answer and cause the same call. *)
Theorem process_ignores_request_metadata self request m calls :
  process network self (with_metadata request m) calls
  = process network self request calls.
Proof. destruct request. reflexivity. Qed.

(** X6: the user identifier that is sent is never empty or null: it is the
    one of the request when that is a non-empty text, and the default of
    the client otherwise. *)
Theorem sent_user_identifier self request c :
  c ∈ (process network self request []).2 →
  ∃ u, json c !! "externalUserIdentifier" = Some (VStr u)
       ∧ u ≠ ""
       ∧ (user_id request = Some u
          ∨ (opt_truthy (user_id request) = false
             ∧ external_user_identifier self = Some u)).
Proof.
  rewrite process_sends_at_most_once.
  destruct (opt_truthy (opt_or _ _)) eqn:Hu; cbn [app].
  - intros ->%list_elem_of_singleton.
    assert (Hp : json (outbound_call self request
                         (opt_or (user_id request)
                            (external_user_identifier self)))
                 !! "externalUserIdentifier"
                 = Some (opt_value (opt_or (user_id request)
                                      (external_user_identifier self)))).
    { apply build_payload_contract. }
    rewrite Hp. clear Hp. unfold opt_or in *.
    destruct (opt_truthy (user_id request)) eqn:Hr.
    + destruct (user_id request) as [u |]; [| discriminate].
      exists u. repeat split; [| auto]. intros ->. discriminate.
    + destruct (external_user_identifier self) as [u |]; [| discriminate].
      exists u. repeat split; [| auto]. intros ->. discriminate.
  - intros []%elem_of_nil.
Qed.

(** *** Statuses and bodies *)

(** [raise_for_status] only objects to the statuses 400 to 599. *)
Lemma status_ok_iff (status : Z) :
  status_ok status = true ↔ status < 400 ∨ 600 ≤ status.
Proof.
  unfold status_ok. rewrite negb_true_iff, andb_false_iff, Z.leb_gt, Z.ltb_ge.
  reflexivity.
Qed.

(** X7: An answer with a 4xx or 5xx status is a failure whatever its body is:
    the response has empty content, the status as status_code, and as error
    the message of the body when the body is a mapping that has one and the
    generic text in every other case (a body that is not JSON, a list, a
    text that contains "message", a mapping without the key). *)
Theorem http_error_status self request calls response :
  let uid := opt_or (user_id request) (external_user_identifier self) in
  let c := outbound_call self request uid in
  opt_truthy uid = true →
  network c = Returns response →
  400 ≤ status_code response < 600 →
  process network self request calls
  = (Returns {| content := VStr "";
                metadata := {[ "status_code" := VInt (status_code response) ]};
                error := match json_ response with
                         | JsonValue (VDict d) =>
                             from_option id (VStr failed_to_communicate)
                               (d !! "message")
                         | _ => VStr failed_to_communicate
                         end |},
     (calls ++ [c])%list).
Proof.
  intros uid c Hu Hn Hs. rewrite process_cases. fold uid c. rewrite Hu, Hn.
  destruct (status_ok (status_code response)) eqn:Hok.
  { apply status_ok_iff in Hok. lia. }
  unfold http_failure_response, upstream_message.
  destruct (json_ response) as [[ | b | z | f | t | l | d] | [] msg];
    reflexivity.
Qed.

(** X8: Every other status counts as a success, not only the 2xx ones: a
    mapping body under a 1xx or 3xx status (or one of 600 and above) is
    normalised like a 200 answer. *)
Theorem other_status_is_success self request calls response d :
  let uid := opt_or (user_id request) (external_user_identifier self) in
  let c := outbound_call self request uid in
  opt_truthy uid = true →
  network c = Returns response →
  status_code response < 400 ∨ 600 ≤ status_code response →
  json_ response = JsonValue (VDict d) →
  process network self request calls
  = (Returns (success_response d), (calls ++ [c])%list)
  ∧ error (success_response d) = VNone
  ∧ metadata (success_response d) !! "raw_response" = Some (VDict d).
Proof.
  intros uid c Hu Hn Hs Hj. rewrite process_cases. fold uid c.
  rewrite Hu, Hn, Hj. apply status_ok_iff in Hs. rewrite Hs.
  repeat split.
Qed.

(** X9: A successful answer whose JSON body is not a mapping (a list, a text, a
    number, null) is answered by the catch-all clause: empty content, empty
    metadata and an error that names the type of the body. *)
Theorem non_mapping_body self request calls response v :
  let uid := opt_or (user_id request) (external_user_identifier self) in
  let c := outbound_call self request uid in
  opt_truthy uid = true →
  network c = Returns response →
  status_code response < 400 ∨ 600 ≤ status_code response →
  json_ response = JsonValue v →
  (∀ d, v ≠ VDict d) →
  process network self request calls
  = (Returns {| content := VStr "";
                metadata := ∅;
                error := VStr ("Unexpected error: '" ++ type_name v
                               ++ "' object has no attribute 'get'") |},
     (calls ++ [c])%list).
Proof.
  intros uid c Hu Hn Hs Hj Hv. rewrite process_cases. fold uid c.
  rewrite Hu, Hn, Hj. apply status_ok_iff in Hs. rewrite Hs.
  destruct v as [ | b | z | f | t | l | d]; try reflexivity.
  destruct (Hv d eq_refl).
Qed.

(** X10: A fault that is not a [RequestException] (the transport raises, say, a
    TypeError while serialising the payload, or the body of a successful
    answer is not JSON and [.json()] raises a plain ValueError) is answered
    by the catch-all clause with the text of the fault. *)
Theorem other_faults_reach_catch_all self request calls :
  let uid := opt_or (user_id request) (external_user_identifier self) in
  let c := outbound_call self request uid in
  opt_truthy uid = true →
  (∀ cls text,
     network c = Raises (PyException cls text) →
     process network self request calls
     = (Returns {| content := VStr "";
                   metadata := ∅;
                   error := VStr ("Unexpected error: " ++ text) |},
        (calls ++ [c])%list))
  ∧ (∀ response msg,
     network c = Returns response →
     status_code response < 400 ∨ 600 ≤ status_code response →
     json_ response = JsonDecodeError false msg →
     process network self request calls
     = (Returns {| content := VStr "";
                   metadata := ∅;
                   error := VStr ("Unexpected error: " ++ msg) |},
        (calls ++ [c])%list)).
Proof.
  intros uid c Hu. split.
  - intros cls text Hn. rewrite process_cases. fold uid c.
    rewrite Hu, Hn. reflexivity.
  - intros response msg Hn Hs Hj. rewrite process_cases. fold uid c.
    rewrite Hu, Hn, Hj. apply status_ok_iff in Hs. rewrite Hs. reflexivity.
Qed.

(** *** When [process] raises, and what it returns otherwise *)

(** When [process] raises, what it raises, and that it returns otherwise. *)
Lemma process_raises_cases self request calls :
  let uid := opt_or (user_id request) (external_user_identifier self) in
  let c := outbound_call self request uid in
  ((∃ e calls', process network self request calls = (Raises e, calls'))
   ↔ opt_truthy uid = true
     ∧ (network c = Raises (RequestException AttrNone)
        ∨ ∃ response msg,
            network c = Returns response
            ∧ (status_code response < 400 ∨ 600 ≤ status_code response)
            ∧ json_ response = JsonDecodeError true msg))
  ∧ (∀ e calls',
       process network self request calls = (Raises e, calls') →
       e = AttributeError "'NoneType' object has no attribute 'status_code'"
       ∧ calls' = (calls ++ [c])%list)
  ∧ ((∃ e calls', process network self request calls = (Raises e, calls'))
     ∨ ∃ r calls', process network self request calls = (Returns r, calls')).
Proof.
  intros uid c. rewrite process_cases. fold uid c.
  destruct (opt_truthy uid).
  2: { split; [| split].
       - split; [intros (e & calls' & [=]) | intros [[=] _]].
       - intros e calls' [=].
       - right. eauto. }
  destruct (network c) as [response | [[ | | r] | cls text]].
  - destruct (status_ok (status_code response)) eqn:Hok.
    + apply status_ok_iff in Hok.
      destruct (json_ response) as [[ | b | z | f | t | l | d] | [] msg] eqn:Hj.
      all: split; [| split].
      all: try (intros e calls' [= <- <-]; split; reflexivity).
      all: try (intros e calls' [=]).
      all: try (right; eexists _, _; reflexivity).
      all: try (left; eexists _, _; reflexivity).
      all: try (split;
                [ intros (e & calls' & [=])
                | intros [_ [[=] | (r' & m' & [= <-] & _ & Hj')]];
                  rewrite Hj in Hj'; discriminate ]).
      split; [intros _ | intros _; eexists _, _; reflexivity].
      split; [reflexivity |]. right. exists response, msg. auto.
    + assert (Hs : ¬ (status_code response < 400 ∨ 600 ≤ status_code response)).
      { intros Hs%status_ok_iff. congruence. }
      split; [| split].
      * split; [intros (e & calls' & [=]) |].
        intros [_ [[=] | (r' & m' & [= <-] & Hs' & _)]]. destruct (Hs Hs').
      * intros e calls' [=].
      * right. eexists _, _; reflexivity.
  - split; [| split].
    + split; [intros (e & calls' & [=]) |].
      intros [_ [[=] | (r' & m' & [=] & _)]].
    + intros e calls' [=].
    + right. eexists _, _; reflexivity.
  - split; [| split].
    + split; [intros _; split; [reflexivity | left; reflexivity] |].
      intros _. eexists _, _; reflexivity.
    + intros e calls' [= <- <-]. split; reflexivity.
    + left. eexists _, _; reflexivity.
  - split; [| split].
    + split; [intros (e & calls' & [=]) |].
      intros [_ [[=] | (r' & m' & [=] & _)]].
    + intros e calls' [=].
    + right. eexists _, _; reflexivity.
  - split; [| split].
    + split; [intros (e & calls' & [=]) |].
      intros [_ [[=] | (r' & m' & [=] & _)]].
    + intros e calls' [=].
    + right. eexists _, _; reflexivity.
Qed.

(** X11: [process] raises in two situations only, both after the call was made:
    the transport raised a [RequestException] whose response is [None], or
    the body of a successful answer is not JSON and [.json()] raised a
    [RequestException] (requests 2.27 and later).  What it raises then is
    the AttributeError of line 159.  In every other situation it returns a
    response. *)
Theorem process_raises_iff self request calls :
  let uid := opt_or (user_id request) (external_user_identifier self) in
  let c := outbound_call self request uid in
  let slip :=
    opt_truthy uid = true
    ∧ (network c = Raises (RequestException AttrNone)
       ∨ ∃ response msg,
           network c = Returns response
           ∧ (status_code response < 400 ∨ 600 ≤ status_code response)
           ∧ json_ response = JsonDecodeError true msg) in
  ((∃ e calls', process network self request calls = (Raises e, calls'))
   ↔ slip)
  ∧ (∀ e calls',
       process network self request calls = (Raises e, calls') →
       e = AttributeError "'NoneType' object has no attribute 'status_code'"
       ∧ calls' = (calls ++ [c])%list)
  ∧ (¬ slip →
     ∃ r calls', process network self request calls = (Returns r, calls')).
Proof.
  intros uid c slip.
  destruct (process_raises_cases self request calls) as (Hiff & Hwhat & Htot).
  fold uid c in Hiff, Hwhat. split; [exact Hiff |]. split; [exact Hwhat |].
  intros Hn. destruct Htot as [Hr | Hr]; [| exact Hr].
  destruct (Hn (proj1 Hiff Hr)).
Qed.

(** X12: A response that [process] returns has one of two shapes: a failure,
    with empty content and as metadata either the empty mapping or the
    single entry status_code; or a success, with no error and the metadata
    of a normalised body.  So a response that reports an error never has
    content, and its metadata never has a structured-insights block. *)
Theorem returned_response_shape self request calls r calls' :
  process network self request calls = (Returns r, calls') →
  ((content r = VStr ""
    ∧ (metadata r = ∅ ∨ ∃ status, metadata r = {[ "status_code" := status ]}))
   ∨ (error r = VNone ∧ ∃ d, r = success_response d))
  ∧ (error r ≠ VNone →
     content r = VStr "" ∧ metadata r !! "suada_data" = None).
Proof.
  intros Hp.
  assert (Hshape :
    (content r = VStr ""
     ∧ (metadata r = ∅ ∨ ∃ status, metadata r = {[ "status_code" := status ]}))
    ∨ (error r = VNone ∧ ∃ d, r = success_response d)).
  { rewrite process_cases in Hp.
    destruct (opt_truthy _).
    2: { injection Hp as <- _. left. split; [reflexivity | left; reflexivity]. }
    destruct (network _) as [response | [[ | | r0] | cls text]].
    - destruct (status_ok (status_code response)).
      + destruct (json_ response) as [[ | b | z | f | t | l | d] | [] msg];
          try discriminate Hp; injection Hp as <- _;
          try (left; split; [reflexivity | left; reflexivity]).
        right. split; [reflexivity | eauto].
      + injection Hp as <- _. left. split; [reflexivity |]. right. eauto.
    - injection Hp as <- _. left. split; [reflexivity |]. right. eauto.
    - discriminate Hp.
    - injection Hp as <- _. left. split; [reflexivity |]. right. eauto.
    - injection Hp as <- _. left. split; [reflexivity | left; reflexivity]. }
  split; [exact Hshape |]. intros He.
  destruct Hshape as [[Hc [-> | [status ->]]] | [Hn _]].
  - split; [exact Hc | reflexivity].
  - split; [exact Hc | reflexivity].
  - congruence.
Qed.

(** *** The LangChain tool *)

Section Tool.

Variable format_value : value → string.
Hypothesis format_text : ∀ s, format_value (VStr s) = s.




End Tool.

End WithNetwork.

(** *** Sample runs *)

Import ExtraSamples.

Lemma init_strips_trailing_slashes_witness :
  (∀ u, "https://suada.ai/api/public" ≠ (u ++ "/")%string)
  ∧ (∃ t, slashed_url = ("https://suada.ai/api/public" ++ t)%string
          ∧ only_char "/" t = true)
  ∧ ((∀ u, slashed_url ≠ (u ++ "/")%string) →
     "https://suada.ai/api/public" = slashed_url)
  ∧ rstrip "/" "https://suada.ai/api/public" = "https://suada.ai/api/public".
Proof.
  exact (init_strips_trailing_slashes (Some "sk-test") None slashed_url None
           client eq_refl).
Defined.

Lemma constructed_client_call_witness :
  ∃ call,
    (process connection_refused client revenue_request []).2 = [call]
    ∧ url call = "https://suada.ai/api/public/chat"
    ∧ headers call !! "Authorization" = Some "Bearer sk-test"
    ∧ headers call !! "Content-Type" = Some "application/json"
    ∧ headers call !! "Accept" = Some "application/json"
    ∧ headers call !! "User-Agent" = Some "SuadaMCP/1.0 Python"
    ∧ dom (headers call)
      = {[ "Authorization"; "Content-Type"; "Accept"; "User-Agent" ]}.
Proof.
  exact (constructed_client_call connection_refused (Some "sk-test") None
           slashed_url None client revenue_request [] eq_refl eq_refl).
Defined.

Lemma sent_user_identifier_witness :
  ∃ u, json (outbound_call client_with_default anonymous_request
               (Some "example_user")) !! "externalUserIdentifier"
       = Some (VStr u)
       ∧ u ≠ ""
       ∧ (user_id anonymous_request = Some u
          ∨ (opt_truthy (user_id anonymous_request) = false
             ∧ external_user_identifier client_with_default = Some u)).
Proof.
  apply (sent_user_identifier connection_refused client_with_default
           anonymous_request).
  rewrite process_calls by reflexivity. apply list_elem_of_singleton.
  reflexivity.
Defined.

Lemma http_error_status_witness :
  process (replies 404 (json_ not_found)) client revenue_request []
  = (Returns {| content := VStr "";
                metadata := {[ "status_code" := VInt 404 ]};
                error := VStr "Unknown user" |},
     [outbound_call client revenue_request (Some "u1")]).
Proof.
  apply (http_error_status (replies 404 (json_ not_found)) client
           revenue_request [] not_found).
  - reflexivity.
  - reflexivity.
  - cbn [status_code not_found]. lia.
Defined.

Lemma other_status_is_success_witness :
  process (λ _, Returns redirected) client revenue_request []
  = (Returns (success_response growth_body),
     [outbound_call client revenue_request (Some "u1")])
  ∧ error (success_response growth_body) = VNone
  ∧ metadata (success_response growth_body) !! "raw_response"
    = Some (VDict growth_body).
Proof.
  apply (other_status_is_success (λ _, Returns redirected) client
           revenue_request [] redirected growth_body).
  - reflexivity.
  - reflexivity.
  - cbn [status_code redirected]. lia.
  - reflexivity.
Defined.

Lemma non_mapping_body_witness :
  process (λ _, Returns listing) client revenue_request []
  = (Returns {| content := VStr "";
                metadata := ∅;
                error := VStr "Unexpected error: 'list' object has no attribute 'get'" |},
     [outbound_call client revenue_request (Some "u1")]).
Proof.
  apply (non_mapping_body (λ _, Returns listing) client revenue_request []
           listing (VList [VStr "message"])).
  - reflexivity.
  - reflexivity.
  - cbn [status_code listing]. lia.
  - reflexivity.
  - discriminate.
Defined.

Lemma other_faults_reach_catch_all_witness :
  process unserialisable client revenue_request []
  = (Returns {| content := VStr "";
                metadata := ∅;
                error := VStr "Unexpected error: Object of type set is not JSON serializable" |},
     [outbound_call client revenue_request (Some "u1")]).
Proof.
  exact (proj1 (other_faults_reach_catch_all unserialisable client
                  revenue_request [] eq_refl)
           "TypeError" "Object of type set is not JSON serializable" eq_refl).
Defined.

Lemma returned_response_shape_witness :
  ((content (http_failure_response silent_failure) = VStr ""
    ∧ (metadata (http_failure_response silent_failure) = ∅
       ∨ ∃ status, metadata (http_failure_response silent_failure)
                   = {[ "status_code" := status ]}))
   ∨ (error (http_failure_response silent_failure) = VNone
      ∧ ∃ d, http_failure_response silent_failure = success_response d))
  ∧ (error (http_failure_response silent_failure) ≠ VNone →
     content (http_failure_response silent_failure) = VStr ""
     ∧ metadata (http_failure_response silent_failure) !! "suada_data" = None).
Proof.
  apply (returned_response_shape (λ _, Returns silent_failure) client
           revenue_request [] (http_failure_response silent_failure)
           [outbound_call client revenue_request (Some "u1")]).
  apply (process_http_error (λ _, Returns silent_failure) client
           revenue_request [] silent_failure); reflexivity.
Defined.



(** A 500 answer whose message is null comes back from the tool as the
    empty text. *)
Example tool_hides_null_message :
  _run (λ _, Returns silent_failure) str_of_text client_with_default
    "How are sales?" []
  = (Returns (VStr ""),
     [outbound_call client_with_default (tool_request "How are sales?")
        (Some "example_user")]).
Proof. reflexivity. Qed.

End ClientExtra.

(** ** Further properties of the tool server *)

Module ServerExtra.
Import SuadaServer ServerSpec ExtraSpec ServerProps.

Lemma string_append_assoc (a b c : string) :
  ((a ++ b) ++ c)%string = (a ++ (b ++ c))%string.
Proof.
  induction a as [| x a IH]; [reflexivity |].
  rewrite !ClientExtra.append_cons, IH. reflexivity.
Qed.

(** *** The handlers and the SDK *)

(** [business_analyst], by cases on what the SDK does. *)
Lemma business_analyst_cases self query calls :
  business_analyst self query calls =
    match payload_fault (suada self) query with
    | Some e =>
        (Raises (ToolExecutionError
                   ("Failed to get business insights: " ++ str e)), calls)
    | None =>
        let sent := (calls ++ [ {| message := query |} ])%list in
        match chat_api (suada self) {| message := query |} with
        | Raises e =>
            (Raises (ToolExecutionError
                       ("Failed to get business insights: " ++ str e)), sent)
        | Returns o =>
            match getattr o "response", getattr o "metrics",
                  getattr o "insights", getattr o "recommendations",
                  getattr o "risks" with
            | Returns r, Returns m, Returns i, Returns rc, Returns rk =>
                (Returns (analyst_result r m i rc rk), sent)
            | Raises e, _, _, _, _
            | Returns _, Raises e, _, _, _
            | Returns _, Returns _, Raises e, _, _
            | Returns _, Returns _, Returns _, Raises e, _
            | Returns _, Returns _, Returns _, Returns _, Raises e =>
                (Raises (ToolExecutionError
                           ("Failed to get business insights: " ++ str e)),
                 sent)
            end
        end
    end.
Proof.
  unfold business_analyst. rewrite wrapped_handler.
  unfold business_analyst_body, new_ChatPayload, chat. run.
  destruct (payload_fault (suada self) query); [reflexivity |].
  destruct (chat_api (suada self) _) as [o | e]; [| reflexivity].
  destruct (getattr o "response"); [| reflexivity].
  destruct (getattr o "metrics"); [| reflexivity].
  destruct (getattr o "insights"); [| reflexivity].
  destruct (getattr o "recommendations"); [| reflexivity].
  destruct (getattr o "risks"); reflexivity.
Qed.

(** [data_retrieval], by cases on what the SDK does. *)
Lemma data_retrieval_cases self data_source query calls :
  let text := retrieval_instruction data_source query in
  data_retrieval self data_source query calls =
    match payload_fault (suada self) text with
    | Some e =>
        (Raises (ToolExecutionError ("Failed to retrieve data: " ++ str e)),
         calls)
    | None =>
        let sent := (calls ++ [ {| message := text |} ])%list in
        match chat_api (suada self) {| message := text |} with
        | Raises e =>
            (Raises (ToolExecutionError ("Failed to retrieve data: " ++ str e)),
             sent)
        | Returns o =>
            match getattr o "response" with
            | Raises e =>
                (Raises (ToolExecutionError
                           ("Failed to retrieve data: " ++ str e)), sent)
            | Returns data =>
                (Returns (retrieval_result data data_source query), sent)
            end
        end
    end.
Proof.
  intros text. unfold data_retrieval. rewrite wrapped_handler.
  rewrite data_retrieval_body_cases. fold text.
  destruct (payload_fault (suada self) text); [reflexivity |].
  destruct (chat_api (suada self) _) as [o | e]; [| reflexivity].
  destruct (getattr o "response"); reflexivity.
Qed.

(** The calls that [data_retrieval] records. *)
Lemma data_retrieval_calls self data_source query calls :
  (data_retrieval self data_source query calls).2
  = (calls ++ match payload_fault (suada self)
                      (retrieval_instruction data_source query) with
              | None => [ {| message := retrieval_instruction data_source query |} ]
              | Some _ => []
              end)%list.
Proof.
  rewrite data_retrieval_cases.
  destruct (payload_fault (suada self) _).
  { cbn [snd]. rewrite app_nil_r. reflexivity. }
  destruct (chat_api (suada self) _) as [o | e]; [| reflexivity].
  destruct (getattr o "response"); reflexivity.
Qed.

(** X15: Each tool invocation calls the SDK at most once, whether the call
    succeeds, raises, or answers with an object that lacks an attribute:
    once, with the query (or the composite instruction) as message, when
    the payload can be built, and not at all when the payload constructor
    raises.  No handler retries. *)
Theorem tools_call_sdk_at_most_once self :
  (∀ query calls,
     (business_analyst self query calls).2
     = (calls ++ match payload_fault (suada self) query with
                 | None => [ {| message := query |} ]
                 | Some _ => []
                 end)%list)
  ∧ (∀ data_source query calls,
     (data_retrieval self data_source query calls).2
     = (calls ++ match payload_fault (suada self)
                         (retrieval_instruction data_source query) with
                 | None => [ {| message := "Retrieve data from " ++ data_source
                                           ++ ": " ++ query |} ]
                 | Some _ => []
                 end)%list).
Proof.
  split.
  - intros query calls. rewrite business_analyst_cases.
    destruct (payload_fault (suada self) query).
    { cbn [snd]. rewrite app_nil_r. reflexivity. }
    destruct (chat_api (suada self) _) as [o | e]; [| reflexivity].
    destruct (getattr o "response"); [| reflexivity].
    destruct (getattr o "metrics"); [| reflexivity].
    destruct (getattr o "insights"); [| reflexivity].
    destruct (getattr o "recommendations"); [| reflexivity].
    destruct (getattr o "risks"); reflexivity.
  - intros data_source query calls. apply data_retrieval_calls.
Qed.

(** Whenever [business_analyst] returns, the SDK answered the query with an
    object that has all five attributes, and the result is the mapping of
    these attributes; an answer that lacks one of them never yields a
    partial result. *)
Lemma business_analyst_returns_inv self query calls result calls' :
  business_analyst self query calls = (Returns result, calls') →
  ∃ o r m i rc rk,
    chat_api (suada self) {| message := query |} = Returns o
    ∧ attrs o !! "response" = Some r
    ∧ attrs o !! "metrics" = Some m
    ∧ attrs o !! "insights" = Some i
    ∧ attrs o !! "recommendations" = Some rc
    ∧ attrs o !! "risks" = Some rk
    ∧ result = analyst_result r m i rc rk
    ∧ calls' = (calls ++ [ {| message := query |} ])%list.
Proof.
  rewrite business_analyst_cases.
  destruct (payload_fault (suada self) query); [discriminate |].
  destruct (chat_api (suada self) _) as [o | e] eqn:Hc; [| discriminate].
  unfold getattr.
  destruct (attrs o !! "response") as [r |] eqn:Hr; [| discriminate].
  destruct (attrs o !! "metrics") as [m |] eqn:Hm; [| discriminate].
  destruct (attrs o !! "insights") as [i |] eqn:Hi; [| discriminate].
  destruct (attrs o !! "recommendations") as [rc |] eqn:Hrc; [| discriminate].
  destruct (attrs o !! "risks") as [rk |] eqn:Hrk; [| discriminate].
  intros [= <- <-]. exists o, r, m, i, rc, rk. repeat split; assumption.
Qed.

(** X16: A result of [business_analyst] has exactly the keys that the return
    schema registered for the tool declares as properties; and a
    collection field that was substituted (it is falsy) has the JSON type
    the schema declares for it: an object for metrics, an array for
    insights, recommendations and risks. *)
Theorem analyst_result_matches_schema self query calls result calls' schema props :
  business_analyst self query calls = (Returns result, calls') →
  return_schema business_analyst_tool = Some schema →
  member schema "properties" = Some (VDict props) →
  dom result = dom props
  ∧ ∀ k v, k ∈ collection_fields →
           result !! k = Some v →
           truthy v = false →
           declared_type schema k = Some (VStr (json_type v)).
Proof.
  intros Hr Hs Hp.
  apply business_analyst_returns_inv in Hr
    as (o & r & m & i & rc & rk & _ & _ & _ & _ & _ & _ & -> & _).
  injection Hs as <-. injection Hp as <-. split; [reflexivity |].
  intros k v Hk. unfold collection_fields in Hk.
  assert (Hdefault : ∀ a d, Some (py_or a d) = Some v →
                            truthy v = false → v = d).
  { intros a d [= <-]. unfold py_or. destruct (truthy a) eqn:Ha; [| reflexivity].
    rewrite Ha. discriminate. }
  repeat (apply elem_of_cons in Hk as [-> | Hk]);
    [ .. | by apply elem_of_nil in Hk ];
    intros Hl Hv.
  - rewrite (Hdefault m (VDict ∅) Hl Hv). reflexivity.
  - rewrite (Hdefault i (VList []) Hl Hv). reflexivity.
  - rewrite (Hdefault rc (VList []) Hl Hv). reflexivity.
  - rewrite (Hdefault rk (VList []) Hl Hv). reflexivity.
Qed.

(** X17: The composite instruction does not keep its two parts apart: moving a
    ": " from the query into the data source (or back) gives the same
    text, so two different invocations of [data_retrieval] send the SDK
    the same message and get the same answer as data, while the metadata
    they echo differs. *)
Theorem instruction_is_ambiguous self (a b c : string) calls :
  retrieval_instruction (a ++ ": " ++ b) c
  = retrieval_instruction a (b ++ ": " ++ c)
  ∧ (data_retrieval self (a ++ ": " ++ b) c calls).2
    = (data_retrieval self a (b ++ ": " ++ c) calls).2
  ∧ ∀ r1 r2 calls1 calls2,
      data_retrieval self (a ++ ": " ++ b) c calls = (Returns r1, calls1) →
      data_retrieval self a (b ++ ": " ++ c) calls = (Returns r2, calls2) →
      r1 !! "data" = r2 !! "data"
      ∧ r1 !! "metadata"
        = Some (VDict {[ "source" := VStr (a ++ ": " ++ b);
                         "query" := VStr c ]})
      ∧ r2 !! "metadata"
        = Some (VDict {[ "source" := VStr a;
                         "query" := VStr (b ++ ": " ++ c) ]}).
Proof.
  assert (Ht : retrieval_instruction (a ++ ": " ++ b) c
               = retrieval_instruction a (b ++ ": " ++ c)).
  { unfold retrieval_instruction.
    rewrite !string_append_assoc. reflexivity. }
  split; [exact Ht |]. split.
  - rewrite !data_retrieval_calls, Ht. reflexivity.
  - intros r1 r2 calls1 calls2.
    rewrite !data_retrieval_cases. cbv zeta. rewrite Ht.
    destruct (payload_fault (suada self) _); [discriminate |].
    destruct (chat_api (suada self) _) as [o | e]; [| discriminate].
    destruct (getattr o "response"); [| discriminate].
    intros [= <- _] [= <- _]. repeat split.
Qed.

(** *** Construction and entry point *)

Section Main.

Variable getenv_api_key : option string.
Variable new_Suada : string → outcome exn Suada.
Variable mcp_setup : outcome exn unit.
Variable serve : SuadaMCPServer → outcome exn unit.

Lemma server_init_cases (arg : option string) :
  init getenv_api_key new_Suada mcp_setup arg =
    match opt_or arg getenv_api_key with
    | Some (String a k) =>
        match new_Suada (String a k), mcp_setup with
        | Returns sdk, Returns _ =>
            Returns {| api_key := String a k; suada := sdk |}
        | Raises e, _ => Raises e
        | Returns _, Raises e => Raises e
        end
    | _ => Raises (ValueError "Suada API key is required. Provide it as an argument or set SUADA_API_KEY environment variable.")
    end.
Proof.
  unfold init. destruct (opt_or arg getenv_api_key) as [[| a k] |];
    reflexivity.
Qed.

(** X18: A server that [SuadaMCPServer.__init__] returns holds a non-empty key,
    the argument when that is a non-empty text and the environment's
    otherwise, and its SDK client is the one constructed for exactly that
    key. *)
Theorem server_init_key (arg : option string) server :
  init getenv_api_key new_Suada mcp_setup arg = Returns server →
  api_key server ≠ ""
  ∧ (arg = Some (api_key server)
     ∨ (opt_truthy arg = false ∧ getenv_api_key = Some (api_key server)))
  ∧ new_Suada (api_key server) = Returns (suada server).
Proof.
  rewrite server_init_cases. unfold opt_or.
  destruct (opt_truthy arg) eqn:Ha.
  - destruct arg as [[| a k] |]; try discriminate.
    destruct (new_Suada (String a k)) as [sdk |] eqn:Hs; [| discriminate].
    destruct mcp_setup; [| discriminate].
    intros [= <-]. cbn [api_key suada]. repeat split; auto; discriminate.
  - destruct getenv_api_key as [[| a k] |]; try discriminate.
    destruct (new_Suada (String a k)) as [sdk |] eqn:Hs; [| discriminate].
    destruct mcp_setup; [| discriminate].
    intros [= <-]. cbn [api_key suada]. repeat split; auto; discriminate.
Qed.


End Main.

(** *** Sample runs *)

Import ExtraServerSamples.

Lemma analyst_result_matches_schema_witness :
  dom (analyst_result (VStr "1. Widgets 2. Gadgets") VNone
         (VList [VStr "Widgets lead"]) VNone VNone)
  = {[ "response"; "metrics"; "insights"; "recommendations"; "risks" ]}.
Proof.
  refine (proj1 (analyst_result_matches_schema
                   (server_of (sdk_answering sales_answer)) "How are sales?" []
                   (analyst_result (VStr "1. Widgets 2. Gadgets") VNone
                      (VList [VStr "Widgets lead"]) VNone VNone)
                   [ {| message := "How are sales?" |} ] _ _
                   eq_refl eq_refl eq_refl)).
Defined.

Lemma server_init_key_witness :
  "sk-env" ≠ ""
  ∧ (Some "" = Some "sk-env"
     ∨ (opt_truthy (Some "") = false ∧ Some "sk-env" = Some "sk-env"))
  ∧ sdk_for_key "sk-env" = Returns (sdk_answering sales_answer).
Proof.
  exact (server_init_key (Some "sk-env") sdk_for_key setup_done (Some "")
           {| api_key := "sk-env"; suada := sdk_answering sales_answer |}
           eq_refl).
Defined.

Example main_without_key :
  main None sdk_for_key setup_done serve_until_closed None = SystemExit 1
  ∧ main (Some "sk-env") sdk_for_key setup_done serve_until_closed (Some "")
    = Completed.
Proof. split; reflexivity. Qed.

End ServerExtra.
